(** * Note-Library: the live-quiz authoring form and the live-test listing

    A shallow embedding of two React components,

    - [CreateLiveQuiz] (the admin form: details inputs, JSON question
      upload, submission to the document store), and
    - [LiveTest] (the student listing of the non-archived live quizzes),

    with the properties of their handlers.  Component state is threaded
    explicitly: every handler is a function from the state it sees to the
    state after all its setters ran.  A handler that awaits is cut at the
    [await]: the part before it returns the call it issues, the part after
    it takes the settled outcome. *)

From Stdlib Require Import ZArith List String Ascii Bool Lia.
From Stdlib Require Import Permutation Sorted DecimalString DecimalPos DecimalZ.
Import ListNotations.

Set Warnings "-register-all".

Local Open Scope string_scope.
Local Open Scope Z_scope.

(* ================================================================== *)
(** * The JavaScript fragment the components rely on                   *)
(* ================================================================== *)

Module JS.

(** ** Exceptions and [try]/[catch] *)

Inductive exn : Type :=
| SyntaxError
| TypeError.

Inductive completion (A : Type) : Type :=
| Normal (a : A)
| Throw (e : exn).
Arguments Normal {A} a.
Arguments Throw {A} e.

Definition bind {A B} (c : completion A) (k : A -> completion B)
  : completion B :=
  match c with
  | Normal a => k a
  | Throw e => Throw e
  end.

Definition try_catch {A} (body : completion A) (handler : exn -> A) : A :=
  match body with
  | Normal a => a
  | Throw e => handler e
  end.

Notation "x <- c ;; k" := (bind c (fun x => k))
  (at level 61, c at next level, right associativity).

(** ** Numbers

    A Number that [parseInt] can return is [NaN], an infinity, or a
    double whose value is a whole number; [Num z] is the double of
    value [z] (zero of either sign is [Num 0]). *)

Inductive number : Type :=
| NaN
| Num (z : Z)
| PosInfinity
| NegInfinity.

(** [x <= y] on Numbers: every comparison with [NaN] is false. *)
Definition le (x y : number) : bool :=
  match x, y with
  | NaN, _ | _, NaN => false
  | Num a, Num b => a <=? b
  | NegInfinity, _ => true
  | _, PosInfinity => true
  | _, _ => false
  end.

(** The nearest double to a whole number [m >= 0], ties to the even
    significand: below 2^53 the number itself, beyond it the 53 leading
    bits, rounded. *)
Definition roundToDouble (m : Z) : Z :=
  if m <? 2 ^ 53 then m
  else
    let e := Z.log2 m - 52 in
    let q := Z.shiftr m e in
    let r := m - Z.shiftl q e in
    let half := Z.shiftl 1 (e - 1) in
    let q' := if (half <? r) || ((r =? half) && Z.odd q)
              then q + 1 else q in
    Z.shiftl q' e.

(** The Number value for a whole number: its nearest double, or an
    infinity when that would be 2^1024 or more.  [parseInt] may drop
    decimal digits after the twentieth before converting; engines
    convert exactly, as here. *)
Definition ofInteger (z : Z) : number :=
  let m := roundToDouble (Z.abs z) in
  if 2 ^ 1024 <=? m then (if z <? 0 then NegInfinity else PosInfinity)
  else Num (Z.sgn z * m).

(** [`${n}`] for an integer Number. *)
Definition toString (n : Z) : string :=
  NilZero.string_of_int (Z.to_int n).

(** ** [parseInt(string)] with no radix argument *)

(** StrWhiteSpaceChar, for code units below 256. *)
Definition isWhiteSpace (c : ascii) : bool :=
  let n := nat_of_ascii c in
  ((9 <=? n) && (n <=? 13) || (n =? 32) || (n =? 160))%nat.

Fixpoint trimStart (s : string) : string :=
  match s with
  | String c rest => if isWhiteSpace c then trimStart rest else s
  | EmptyString => s
  end.

Definition digitValue (radix : Z) (c : ascii) : option Z :=
  let n := Z.of_nat (nat_of_ascii c) in
  let v :=
    if (48 <=? n) && (n <=? 57) then Some (n - 48)
    else if (97 <=? n) && (n <=? 122) then Some (n - 87)
    else if (65 <=? n) && (n <=? 90) then Some (n - 55)
    else None in
  match v with
  | Some d => if d <? radix then Some d else None
  | None => None
  end.

(** The value of the longest prefix of radix digits, with the number
    of digits consumed. *)
Fixpoint digits (radix : Z) (s : string) (acc : Z) (count : nat)
  : Z * nat :=
  match s with
  | String c rest =>
      match digitValue radix c with
      | Some d => digits radix rest (acc * radix + d) (S count)
      | None => (acc, count)
      end
  | EmptyString => (acc, count)
  end.

Definition stripSign (s : string) : Z * string :=
  match s with
  | String "-" rest => (-1, rest)
  | String "+" rest => (1, rest)
  | _ => (1, s)
  end.

Definition stripHexPrefix (s : string) : Z * string :=
  match s with
  | String "0" (String "x" rest) => (16, rest)
  | String "0" (String "X" rest) => (16, rest)
  | _ => (10, s)
  end.

Definition parseInt (s : string) : number :=
  let '(sign, s1) := stripSign (trimStart s) in
  let '(radix, s2) := stripHexPrefix s1 in
  let '(mathInt, count) := digits radix s2 0 0%nat in
  match count with
  | O => NaN
  | S _ => ofInteger (sign * mathInt)
  end.

(** ** Values produced by [JSON.parse] *)

Inductive json : Type :=
| JNull
| JBool (b : bool)
| JNumber (literal : string)
| JString (s : string)
| JArray (elements : list json)
| JObject (members : list (string * json)).

(** The outcome of [JSON.parse(text)]: the parser belongs to the
    platform, so a handler receives what it answered. *)
Definition JSON_parse_outcome : Type := completion json.

Definition isArray (v : json) : bool :=
  match v with
  | JArray _ => true
  | _ => false
  end.

Definition hasKey (key : string) (members : list (string * json)) : bool :=
  existsb (fun kv => String.eqb (fst kv) key) members.

(** [key in v], for a key that no built-in prototype defines (the
    components ask for ['id'] and ['question'] only): an object answers
    by its members, an array has no such key, and a primitive on the
    right of [in] raises TypeError. *)
Definition in_ (key : string) (v : json) : completion bool :=
  match v with
  | JObject members => Normal (hasKey key members)
  | JArray _ => Normal false
  | _ => Throw TypeError
  end.

(** [Array.prototype.every]: left to right, stops at the first element
    the callback rejects, and lets the callback's exception through. *)
Fixpoint every {A} (callback : A -> completion bool) (l : list A)
  : completion bool :=
  match l with
  | [] => Normal true
  | x :: rest =>
      ok <- callback x ;;
      if ok then every callback rest else Normal false
  end.

(** [Array.prototype.sort(compare)]: the engine chooses the algorithm,
    the standard fixes the result for a consistent comparator, namely
    the stable arrangement in which [a] precedes [b] when
    [compare(a, b) < 0].  Insertion from the right computes it. *)
Fixpoint sortInsert {A} (compare : A -> A -> Z) (x : A) (l : list A)
  : list A :=
  match l with
  | [] => [x]
  | y :: rest =>
      if compare x y <=? 0 then x :: l
      else y :: sortInsert compare x rest
  end.

Fixpoint sort {A} (compare : A -> A -> Z) (l : list A) : list A :=
  match l with
  | [] => []
  | x :: rest => sortInsert compare x (sort compare rest)
  end.

(** ** Settled promises

    What an awaited call of a service hands back to the handler: the
    value it resolved with, or the error it rejected with. *)

Record Error : Type := mkError { message : string }.

Inductive settled (A : Type) : Type :=
| Fulfilled (value : A)
| Rejected (reason : Error).
Arguments Fulfilled {A} value.
Arguments Rejected {A} reason.

(** [s || fallback] on strings: the empty string is falsy. *)
Definition orElse (s fallback : string) : string :=
  match s with
  | EmptyString => fallback
  | _ => s
  end.

(** [!s] on strings. *)
Definition isEmpty (s : string) : bool :=
  match s with
  | EmptyString => true
  | _ => false
  end.

(** [String.prototype.charAt(0).toUpperCase() + slice(1)] on a string
    of ASCII letters. *)
Definition toUpperCase (c : ascii) : ascii :=
  let n := nat_of_ascii c in
  if ((97 <=? n) && (n <=? 122))%nat then ascii_of_nat (n - 32) else c.

Definition capitalize (s : string) : string :=
  match s with
  | String c rest => String (toUpperCase c) rest
  | EmptyString => EmptyString
  end.

End JS.

(* ================================================================== *)
(** * Shared types                                                     *)
(* ================================================================== *)

(** Modelled from the spec: the declarations of [QuizDetails] and
    [QuizQuestion] (module admin/TestingQuizzes) are not part of the
    sources at hand; the fields are the ones the form initialises and the
    data model lists.  [grade] and [targetAudience] are string unions,
    which are strings at run time; a question is whatever the uploaded
    array holds. *)
Module TestingQuizzes.

(** Modelled from the spec: the declaration of [QuizDetails] is
    missing; these are the five fields of the data model. *)
Record QuizDetails : Type := mkQuizDetails {
  id : string;
  title : string;
  grade : string;
  timeLimit : JS.number;
  targetAudience : string
}.

(** Modelled from the spec: the declaration of [QuizQuestion] is
    missing; a question is an opaque record, here any parsed value. *)
Definition QuizQuestion : Type := JS.json.

End TestingQuizzes.

(** Modelled from the spec: the service module
    services/firestore/liveQuizServices is not part of the sources at
    hand.  The write resolves with an identifier or rejects with an error
    carrying a message; the read resolves with the non-archived quizzes,
    each with a creation timestamp that converts to milliseconds. *)
Module liveQuizServices.
Import TestingQuizzes.

(** Modelled from the spec: how [saveLiveQuizToFirestore] settles, an
    identifier string or an error carrying a message. *)
Definition SaveOutcome : Type := JS.settled string.

(** Modelled from the spec: a creation timestamp, convertible to a
    comparable number of milliseconds. *)
Record Timestamp : Type := mkTimestamp { toMillis : Z }.

(** Modelled from the spec: the declaration of [LiveQuizData] is
    missing; details, questions, the type tag and the timestamp. *)
Record LiveQuizData : Type := mkLiveQuizData {
  details : QuizDetails;
  questions : list QuizQuestion;
  type : string;
  createdAt : Timestamp
}.

(** Modelled from the spec: how
    [getAllUnarchivedLiveQuizzesFromFirestore] settles. *)
Definition ListOutcome : Type := JS.settled (list LiveQuizData).

End liveQuizServices.

(** Modelled from the spec: the auth provider (contexts/AuthContext) is
    not part of the sources at hand; it exposes a nullable identity and a
    loading flag. *)
Module AuthContext.

(** Modelled from the spec: the signed-in identity, of which the form
    reads [uid]. *)
Record User : Type := mkUser { uid : string }.

(** Modelled from the spec: what [useAuth()] yields, the nullable
    identity and the loading flag. *)
Record Auth : Type := mkAuth {
  currentUser : option User;
  authLoading : bool
}.

End AuthContext.

(* ================================================================== *)
(** * The authoring form, [CreateLiveQuiz]                             *)
(* ================================================================== *)

Module CreateLiveQuiz.
Import JS TestingQuizzes AuthContext.

(** ** Component state: the six [useState] cells *)

Record State : Type := mkState {
  quizDetails : QuizDetails;
  quizQuestions : list QuizQuestion;
  fileError : option string;
  formError : option string;
  successMessage : option string;
  isSubmitting : bool
}.

Definition defaultDetails : QuizDetails :=
  {| id := ""; title := ""; grade := ""; timeLimit := Num 0;
     targetAudience := "authenticated" |}.

Definition initialState : State :=
  {| quizDetails := defaultDetails; quizQuestions := [];
     fileError := None; formError := None; successMessage := None;
     isSubmitting := false |}.

Definition setQuizDetails (d : QuizDetails) (st : State) : State :=
  {| quizDetails := d; quizQuestions := quizQuestions st;
     fileError := fileError st; formError := formError st;
     successMessage := successMessage st;
     isSubmitting := isSubmitting st |}.

Definition setQuizQuestions (q : list QuizQuestion) (st : State) : State :=
  {| quizDetails := quizDetails st; quizQuestions := q;
     fileError := fileError st; formError := formError st;
     successMessage := successMessage st;
     isSubmitting := isSubmitting st |}.

Definition setFileError (e : option string) (st : State) : State :=
  {| quizDetails := quizDetails st; quizQuestions := quizQuestions st;
     fileError := e; formError := formError st;
     successMessage := successMessage st;
     isSubmitting := isSubmitting st |}.

Definition setFormError (e : option string) (st : State) : State :=
  {| quizDetails := quizDetails st; quizQuestions := quizQuestions st;
     fileError := fileError st; formError := e;
     successMessage := successMessage st;
     isSubmitting := isSubmitting st |}.

Definition setSuccessMessage (m : option string) (st : State) : State :=
  {| quizDetails := quizDetails st; quizQuestions := quizQuestions st;
     fileError := fileError st; formError := formError st;
     successMessage := m; isSubmitting := isSubmitting st |}.

Definition setIsSubmitting (b : bool) (st : State) : State :=
  {| quizDetails := quizDetails st; quizQuestions := quizQuestions st;
     fileError := fileError st; formError := formError st;
     successMessage := successMessage st; isSubmitting := b |}.

(** ** Messages *)

Definition dquote : string := String (ascii_of_nat 34) EmptyString.

Definition msgInvalidFormat : string :=
  "Invalid JSON format. Expected an array of quiz questions.".
Definition msgInvalidFile : string :=
  "Invalid JSON file. Please ensure it's well-formed JSON.".
Definition msgAuth : string :=
  "Authentication not loaded or user not logged in.".
Definition msgDetails : string :=
  "Please fill in all quiz details (Title, Grade, Time Limit).".
Definition msgQuestions : string :=
  "Please upload a JSON file with quiz questions.".
Definition msgSaveFailedPrefix : string := "Failed to save quiz: ".

Definition msgSuccess (quizTitle quizId : string) : string :=
  "Quiz " ++ dquote ++ quizTitle ++ dquote
    ++ " added/updated successfully with ID: " ++ quizId.

(** ** File ingestion

    A selected file is represented by what [JSON.parse] answers on its
    text.  [handleFileChange] either starts a reader on the file or,
    with no file, clears the questions at once; [reader_onload] is the
    callback the reader runs once the text is there. *)

Definition File : Type := JSON_parse_outcome.

Definition isQuestion (item : json) : completion bool :=
  hasId <- in_ "id" item ;;
  if hasId then in_ "question" item else Normal false.

Definition asArray (data : json) : list QuizQuestion :=
  match data with
  | JArray items => items
  | _ => []
  end.

Definition reader_onload (result : JSON_parse_outcome) (st : State)
  : State :=
  try_catch
    (data <- result ;;
     ok <- (if isArray data then every isQuestion (asArray data)
            else Normal false) ;;
     Normal
       (if ok then setFileError None (setQuizQuestions (asArray data) st)
        else setQuizQuestions []
               (setFileError (Some msgInvalidFormat) st)))
    (fun _ => setQuizQuestions [] (setFileError (Some msgInvalidFile) st)).

Definition handleFileChange (file : option File) (st : State)
  : State * option File :=
  match file with
  | Some f => (st, Some f)
  | None => (setFileError None (setQuizQuestions [] st), None)
  end.

(** The whole ingestion of one selection, the read completing before
    anything else happens. *)
Definition ingest (file : option File) (st : State) : State :=
  match handleFileChange file st with
  | (st', Some f) => reader_onload f st'
  | (st', None) => st'
  end.

(** ** Details inputs

    [{...prevDetails, [name]: ...}]: the inputs wired to this handler
    are named after the fields; another name would add a property that
    [QuizDetails] does not have and leaves the fields as they are. *)

Definition setField (name : string) (value : string) (d : QuizDetails)
  : QuizDetails :=
  if String.eqb name "timeLimit" then
    {| id := id d; title := title d; grade := grade d;
       timeLimit := parseInt value; targetAudience := targetAudience d |}
  else if String.eqb name "title" then
    {| id := id d; title := value; grade := grade d;
       timeLimit := timeLimit d; targetAudience := targetAudience d |}
  else if String.eqb name "grade" then
    {| id := id d; title := title d; grade := value;
       timeLimit := timeLimit d; targetAudience := targetAudience d |}
  else if String.eqb name "targetAudience" then
    {| id := id d; title := title d; grade := grade d;
       timeLimit := timeLimit d; targetAudience := value |}
  else if String.eqb name "id" then
    {| id := value; title := title d; grade := grade d;
       timeLimit := timeLimit d; targetAudience := targetAudience d |}
  else d.

Definition handleDetailsChange (name value : string) (st : State) : State :=
  setQuizDetails (setField name value (quizDetails st)) st.

(** ** Submission *)

Record FinalQuizData : Type := mkFinalQuizData {
  details : QuizDetails;
  questions : list QuizQuestion;
  type : string
}.

(** One call of [saveLiveQuizToFirestore(finalQuizData, uid)]. *)
Record SaveCall : Type := mkSaveCall {
  quizData : FinalQuizData;
  userId : string
}.

Definition withId (d : QuizDetails) (newQuizId : string) : QuizDetails :=
  {| id := newQuizId; title := title d; grade := grade d;
     timeLimit := timeLimit d; targetAudience := targetAudience d |}.

(** [handleSubmit] up to its [await]: the state after the setters that
    ran, and the call it is now waiting for, if it got that far.  [now]
    is what [Date.now()] returns. *)
Definition handleSubmit_to_await (auth : Auth) (now : Z) (st : State)
  : State * option SaveCall :=
  let st := setSuccessMessage None (setFormError None st) in
  match authLoading auth, currentUser auth with
  | false, Some user =>
      if isEmpty (title (quizDetails st))
         || isEmpty (grade (quizDetails st))
         || le (timeLimit (quizDetails st)) (Num 0)
      then (setFormError (Some msgDetails) st, None)
      else if (List.length (quizQuestions st) =? 0)%nat
      then (setFormError (Some msgQuestions) st, None)
      else
        let newQuizId := "quiz_" ++ toString now in
        let finalQuizData :=
          {| details := withId (quizDetails st) newQuizId;
             questions := quizQuestions st;
             type := "live" |} in
        (setIsSubmitting true st,
         Some {| quizData := finalQuizData; userId := uid user |})
  | _, _ => (setFormError (Some msgAuth) st, None)
  end.

(** [handleSubmit] from its [await] on.  [submitted] is the
    [quizDetails] the handler closed over when it was called; [st] is
    the state at the time the call settles. *)
Definition handleSubmit_from_await (submitted : QuizDetails)
    (outcome : liveQuizServices.SaveOutcome) (st : State) : State :=
  setIsSubmitting false
    match outcome with
    | Fulfilled quizId =>
        setQuizQuestions []
          (setQuizDetails defaultDetails
             (setSuccessMessage
                (Some (msgSuccess (title submitted) quizId)) st))
    | Rejected error =>
        setFormError
          (Some (msgSaveFailedPrefix
                   ++ orElse (message error) "Unknown error")) st
    end.

(** One whole run of [handleSubmit] with nothing in between: [save] is
    the service, answering each call with how it settles.  The result
    is the final state and the calls made. *)
Definition handleSubmit
    (save : SaveCall -> liveQuizServices.SaveOutcome)
    (auth : Auth) (now : Z) (st : State) : State * list SaveCall :=
  match handleSubmit_to_await auth now st with
  | (st', Some call) =>
      (handleSubmit_from_await (quizDetails st) (save call) st', [call])
  | (st', None) => (st', [])
  end.

(** The [disabled] attribute of the submit button. *)
Definition submitDisabled (auth : Auth) (st : State) : bool :=
  isSubmitting st
  || authLoading auth
  || match currentUser auth with Some _ => false | None => true end
  || (List.length (quizQuestions st) =? 0)%nat
  || isEmpty (title (quizDetails st))
  || le (timeLimit (quizDetails st)) (Num 0).

(** ** The mounted form as a transition system

    Between two events the form is at rest: its state cells, the auth
    context it reads, the readers whose [onload] has not run yet and
    the save calls that have not settled yet, each with the
    [quizDetails] its handler closed over.  The page is rendered from
    the current state before the next event is taken, so a submit
    event arrives only while the submit button is not disabled.  The
    browser's validation of the [required] and [min] attributes
    restricts submit events further; [FormView.pageStep] adds it. *)

Record Pending : Type := mkPending {
  call : SaveCall;
  submitted : QuizDetails
}.

Record Form : Type := mkForm {
  state : State;
  auth : Auth;
  reading : list File;
  saving : list Pending
}.

Inductive Event : Type :=
| AuthChanged (a : Auth)
| DetailsChanged (name value : string)
| FileChanged (file : option File)
| ReaderLoaded (n : nat)
| SubmitRequested (now : Z)
| SaveSettled (n : nat) (outcome : liveQuizServices.SaveOutcome).

Definition removeAt {A} (n : nat) (l : list A) : list A :=
  firstn n l ++ skipn (S n) l.

Definition mounted (a : Auth) : Form :=
  {| state := initialState; auth := a; reading := []; saving := [] |}.

(** [None]: the event cannot happen in this state. *)
Definition step (f : Form) (e : Event) : option Form :=
  match e with
  | AuthChanged a =>
      Some {| state := state f; auth := a;
              reading := reading f; saving := saving f |}
  | DetailsChanged name value =>
      Some {| state := handleDetailsChange name value (state f);
              auth := auth f; reading := reading f; saving := saving f |}
  | FileChanged file =>
      let '(st, started) := handleFileChange file (state f) in
      Some {| state := st; auth := auth f;
              reading := match started with
                         | Some r => reading f ++ [r]
                         | None => reading f
                         end;
              saving := saving f |}
  | ReaderLoaded n =>
      match nth_error (reading f) n with
      | Some r =>
          Some {| state := reader_onload r (state f); auth := auth f;
                  reading := removeAt n (reading f); saving := saving f |}
      | None => None
      end
  | SubmitRequested now =>
      if submitDisabled (auth f) (state f) then None
      else
        let '(st, issued) := handleSubmit_to_await (auth f) now (state f) in
        Some {| state := st; auth := auth f; reading := reading f;
                saving := match issued with
                          | Some c =>
                              saving f
                                ++ [{| call := c;
                                       submitted := quizDetails (state f) |}]
                          | None => saving f
                          end |}
  | SaveSettled n outcome =>
      match nth_error (saving f) n with
      | Some p =>
          Some {| state := handleSubmit_from_await (submitted p) outcome
                             (state f);
                  auth := auth f; reading := reading f;
                  saving := removeAt n (saving f) |}
      | None => None
      end
  end.

Fixpoint run (f : Form) (events : list Event) : option Form :=
  match events with
  | [] => Some f
  | e :: rest =>
      match step f e with
      | Some f' => run f' rest
      | None => None
      end
  end.

End CreateLiveQuiz.

(* ================================================================== *)
(** * The listing, [LiveTest]                                          *)
(* ================================================================== *)

Module LiveTest.
Import JS TestingQuizzes liveQuizServices.

Record State : Type := mkState {
  quizzes : list LiveQuizData;
  loading : bool;
  error : option string
}.

Definition initialState : State :=
  {| quizzes := []; loading := true; error := None |}.

Definition msgNoTests : string :=
  "No active live tests are currently available.".
Definition msgLoadFailed : string :=
  "Failed to load live tests. Please try again later.".

(** The comparator handed to [sort]:
    [b.createdAt.toMillis() - a.createdAt.toMillis()]. *)
Definition byCreationDesc (a b : LiveQuizData) : Z :=
  toMillis (createdAt b) - toMillis (createdAt a).

(** [fetchQuizzes] up to its [await]. *)
Definition fetchQuizzes_to_await (st : State) : State :=
  {| quizzes := quizzes st; loading := true; error := None |}.

(** [fetchQuizzes] from its [await] on. *)
Definition fetchQuizzes_from_await (outcome : ListOutcome) (st : State)
  : State :=
  match outcome with
  | Fulfilled fetched =>
      let fetchedQuizzes := sort byCreationDesc fetched in
      {| quizzes := fetchedQuizzes;
         loading := false;
         error := if (List.length fetchedQuizzes =? 0)%nat
                  then Some msgNoTests else error st |}
  | Rejected _ =>
      {| quizzes := quizzes st; loading := false;
         error := Some msgLoadFailed |}
  end.

(** The effect run once on mount. *)
Definition fetchQuizzes (outcome : ListOutcome) (st : State) : State :=
  fetchQuizzes_from_await outcome (fetchQuizzes_to_await st).

(** ** What is rendered *)

Definition handleAttendTest (quizId : string) : string :=
  "/student/quiz/" ++ quizId.

Record Card : Type := mkCard {
  key : string;
  heading : string;
  gradeText : string;
  minutes : number;
  questionCount : nat;
  audience : string;
  attend : string
}.

Definition card (quiz : LiveQuizData) : Card :=
  {| key := id (details quiz);
     heading := title (details quiz);
     gradeText := grade (details quiz);
     minutes := timeLimit (details quiz);
     questionCount := List.length (questions quiz);
     audience := capitalize (targetAudience (details quiz));
     attend := handleAttendTest (id (details quiz)) |}.

Inductive View : Type :=
| Spinner
| ErrorAlert (msg : string)
| NoTests
| Cards (cards : list Card).

(** [error && quizzes.length === 0]: the message to show, if any. *)
Definition errorToShow (st : State) : option string :=
  match error st with
  | Some msg =>
      if negb (isEmpty msg) && (List.length (quizzes st) =? 0)%nat
      then Some msg else None
  | None => None
  end.

Definition render (st : State) : View :=
  if loading st then Spinner
  else
    match errorToShow st with
    | Some msg => ErrorAlert msg
    | None =>
        if (List.length (quizzes st) =? 0)%nat then NoTests
        else Cards (map card (quizzes st))
    end.

End LiveTest.

(* ================================================================== *)
(** * The specification's vocabulary                                   *)
(* ================================================================== *)

(** The error taxonomy of the specification.  The components surface
    messages, not kinds; a kind is read off the message. *)
Module Taxonomy.
Import CreateLiveQuiz.

Inductive ErrorKind : Type :=
| MalformedInput
| InvalidShape
| ValidationFailed
| PersistenceFailed.

Definition hasPrefix (p s : string) : bool := String.prefix p s.

Definition fileErrorKind (msg : string) : option ErrorKind :=
  if String.eqb msg msgInvalidFormat then Some InvalidShape
  else if String.eqb msg msgInvalidFile then Some MalformedInput
  else None.

Definition formErrorKind (msg : string) : option ErrorKind :=
  if String.eqb msg msgAuth || String.eqb msg msgDetails
     || String.eqb msg msgQuestions
  then Some ValidationFailed
  else if hasPrefix msgSaveFailedPrefix msg then Some PersistenceFailed
  else None.

(** The kind of the error a state shows, for either flag. *)
Definition shownFileError (st : State) : option ErrorKind :=
  match fileError st with
  | Some msg => fileErrorKind msg
  | None => None
  end.

Definition shownFormError (st : State) : option ErrorKind :=
  match formError st with
  | Some msg => formErrorKind msg
  | None => None
  end.

End Taxonomy.

(** What the specification's sentences say about drafts, uploads and
    listings, as propositions independent of the handlers' own tests. *)
Module Spec.
Import JS TestingQuizzes AuthContext.

(** Auth is not resolved, or nobody is signed in. *)
Definition AuthUnresolved (a : Auth) : Prop :=
  authLoading a = true \/ currentUser a = None.

(** [n <= 0] holds of a Number: it is a number, and not above zero. *)
Definition NonPositive (n : number) : Prop :=
  (exists z, n = Num z /\ z <= 0) \/ n = NegInfinity.

Definition PositiveInteger (n : number) : Prop :=
  exists z, n = Num z /\ 0 < z.

Definition DetailsIncomplete (d : QuizDetails) : Prop :=
  title d = "" \/ grade d = "" \/ NonPositive (timeLimit d).

(** The value possesses a property of that name. *)
Definition HasProperty (name : string) (v : json) : Prop :=
  match v with
  | JObject members => exists value, In (name, value) members
  | _ => False
  end.

(** A record with an [id] and a [question]. *)
Definition QuestionRecord (v : json) : Prop :=
  match v with
  | JObject _ => HasProperty "id" v /\ HasProperty "question" v
  | _ => False
  end.

(** The parsed value is not an array, or some element of it lacks
    [id] or [question]. *)
Definition ShapeInvalid (data : json) : Prop :=
  match data with
  | JArray items =>
      exists item, In item items /\
        (~ HasProperty "id" item \/ ~ HasProperty "question" item)
  | _ => True
  end.

(** An object or an array: a value that may stand on the right of
    [in]. *)
Definition Composite (v : json) : Prop :=
  match v with
  | JObject _ | JArray _ => True
  | _ => False
  end.

(** Later entries were created strictly earlier. *)
Definition NewestFirst (l : list liveQuizServices.LiveQuizData) : Prop :=
  StronglySorted
    (fun a b => liveQuizServices.toMillis (liveQuizServices.createdAt a)
                > liveQuizServices.toMillis (liveQuizServices.createdAt b))
    l.

Definition millis (l : list liveQuizServices.LiveQuizData) : list Z :=
  map (fun q => liveQuizServices.toMillis (liveQuizServices.createdAt q)) l.

(** [s] ends with [m]. *)
Definition Carries (s m : string) : Prop :=
  exists before, s = before ++ m.

End Spec.

(** Shorthand for the statements about [handleSubmit]. *)
Module Shorthand.
Import JS TestingQuizzes AuthContext CreateLiveQuiz.

(** The state [handleSubmit] works on once it has cleared the two
    messages. *)
Definition cleared (st : State) : State :=
  setSuccessMessage None (setFormError None st).

(** The call it issues for a signed-in user when every check passes. *)
Definition issued (user : User) (now : Z) (st : State) : SaveCall :=
  {| quizData :=
       {| details := withId (quizDetails st) ("quiz_" ++ toString now);
          questions := quizQuestions st;
          type := "live" |};
     userId := uid user |}.

(** The submitting flag tells whether a save is out, and at most one
    is. *)
Definition Guarded (f : Form) : Prop :=
  (saving f = [] /\ isSubmitting (state f) = false)
  \/ (exists p, saving f = [p] /\ isSubmitting (state f) = true).

(** Everything but the question sequence and the file error is the
    same in both states: the details field by field, the form error,
    the confirmation and the submitting flag. *)
Definition SameOutsideUpload (st st' : State) : Prop :=
  quizDetails st' = quizDetails st /\
  id (quizDetails st') = id (quizDetails st) /\
  title (quizDetails st') = title (quizDetails st) /\
  grade (quizDetails st') = grade (quizDetails st) /\
  timeLimit (quizDetails st') = timeLimit (quizDetails st) /\
  targetAudience (quizDetails st') = targetAudience (quizDetails st) /\
  formError st' = formError st /\
  successMessage st' = successMessage st /\
  isSubmitting st' = isSubmitting st.

(** [a] was created no earlier than [b]. *)
Definition NotOlder (a b : liveQuizServices.LiveQuizData) : Prop :=
  liveQuizServices.toMillis (liveQuizServices.createdAt a)
  >= liveQuizServices.toMillis (liveQuizServices.createdAt b).

End Shorthand.

(** Concrete drafts and uploads used to exercise the handlers. *)
Module Samples.
Import JS TestingQuizzes AuthContext CreateLiveQuiz.

Definition q1 : json :=
  JObject [("id", JString "q1"); ("question", JString "2+2?")].

Definition teacher : Auth :=
  {| currentUser := Some {| uid := "teacher-1" |}; authLoading := false |}.

Definition algebra : QuizDetails :=
  {| id := ""; title := "Algebra"; grade := "10"; timeLimit := Num 10;
     targetAudience := "all" |}.

Definition algebraDraft : State :=
  setQuizQuestions [q1] (setQuizDetails algebra initialState).

(** Filling the form of the example through the handlers. *)
Definition algebraEvents : list Event :=
  [ DetailsChanged "title" "Algebra";
    DetailsChanged "grade" "10";
    DetailsChanged "timeLimit" "10";
    DetailsChanged "targetAudience" "all";
    FileChanged (Some (Normal (JArray [q1])));
    ReaderLoaded 0 ].

(** The same, but the time-limit field is emptied last. *)
Definition clearedTimeLimitEvents : list Event :=
  algebraEvents ++ [ DetailsChanged "timeLimit" "" ].

(** The draft those events leave behind: [parseInt] of the empty
    field is [NaN]. *)
Definition clearedTimeLimitDraft : State :=
  {| quizDetails :=
       {| id := ""; title := "Algebra"; grade := "10"; timeLimit := NaN;
          targetAudience := "all" |};
     quizQuestions := [q1];
     fileError := None; formError := None; successMessage := None;
     isSubmitting := false |}.

(** Submitting the example at time 1700, then retitling it while the
    save is out. *)
Definition submittedEvents : list Event :=
  algebraEvents
    ++ [ SubmitRequested 1700; DetailsChanged "title" "Algebra II" ].

(** The form those events lead to. *)
Definition submittedForm : Form :=
  {| state :=
       {| quizDetails :=
            {| id := ""; title := "Algebra II"; grade := "10";
               timeLimit := Num 10; targetAudience := "all" |};
          quizQuestions := [q1];
          fileError := None; formError := None; successMessage := None;
          isSubmitting := true |};
     auth := teacher;
     reading := [];
     saving :=
       [ {| call :=
              {| quizData :=
                   {| details :=
                        {| id := "quiz_1700"; title := "Algebra";
                           grade := "10"; timeLimit := Num 10;
                           targetAudience := "all" |};
                      questions := [q1];
                      type := "live" |};
                 userId := "teacher-1" |};
            submitted := algebra |} ] |}.

Definition quizAt (quizId : string) (ms : Z)
  : liveQuizServices.LiveQuizData :=
  {| liveQuizServices.details :=
       {| id := quizId; title := "Algebra"; grade := "10";
          timeLimit := Num 10; targetAudience := "all" |};
     liveQuizServices.questions := [q1];
     liveQuizServices.type := "live";
     liveQuizServices.createdAt :=
       {| liveQuizServices.toMillis := ms |} |}.

End Samples.

(* ================================================================== *)
(** * What the form renders                                            *)
(* ================================================================== *)

(** The parts of the JSX of [CreateLiveQuiz] that depend on the state:
    the two auth banners, the preview of the parsed questions, and the
    submit button's label and styling. *)
Module FormView.
Import JS TestingQuizzes AuthContext CreateLiveQuiz.

(** [authLoading && <div>Loading authentication...</div>] *)
Definition showsAuthLoading (a : Auth) : bool := authLoading a.

(** [!currentUser && !authLoading && <div>You must be logged in ...</div>] *)
Definition showsLoginRequired (a : Auth) : bool :=
  match currentUser a with Some _ => false | None => true end
  && negb (authLoading a).

(** The preview block: the heading's count, the questions given to
    [JSON.stringify] ([quizQuestions.slice(0, 5)]), and the count in
    "...and N more questions" when there are more than five. *)
Record Preview : Type := mkPreview {
  parsedCount : nat;
  shown : list QuizQuestion;
  more : option nat
}.

Definition slice (from to : nat) {A} (l : list A) : list A :=
  firstn (to - from) (skipn from l).

(** [quizQuestions.length > 0 && (...)] *)
Definition preview (st : State) : option Preview :=
  let n := List.length (quizQuestions st) in
  if (0 <? n)%nat then
    Some {| parsedCount := n;
            shown := slice 0 5 (quizQuestions st);
            more := if (5 <? n)%nat then Some (n - 5)%nat else None |}
  else None.

(** [isSubmitting ? 'Submitting Quiz...' : 'Create Quiz'] *)
Definition buttonLabel (st : State) : string :=
  if isSubmitting st then "Submitting Quiz..." else "Create Quiz".

(** The test that picks the grey, not-allowed styling of the button. *)
Definition buttonGreyed (a : Auth) (st : State) : bool :=
  isSubmitting st
  || match currentUser a with Some _ => false | None => true end
  || (List.length (quizQuestions st) =? 0)%nat
  || isEmpty (title (quizDetails st))
  || le (timeLimit (quizDetails st)) (Num 0).

(** ** The browser's validation of the form

    The [<form>] has no [noValidate]: the browser fires its submit
    event only when every control meets its constraints.  The controls
    are rendered from the state, so their validity is read off it. *)

(** The title: [type="text" required value={quizDetails.title}]. *)
Definition titleFieldValid (st : State) : bool :=
  negb (isEmpty (title (quizDetails st))).

(** The grade: [<select required value={quizDetails.grade}>], whose
    first option is the placeholder with the empty value. *)
Definition gradeFieldValid (st : State) : bool :=
  negb (isEmpty (grade (quizDetails st))).

(** What the time-limit field, [type="number"
    value={quizDetails.timeLimit}], holds once rendered: the number,
    or nothing for [NaN] and the infinities, whose texts are not valid
    floating-point numbers. *)
Definition timeLimitFieldValue (n : number) : option Z :=
  match n with
  | Num z => Some z
  | _ => None
  end.

(** [required min="1"]: something is held, and it is at least 1 (a
    whole number always matches the default step). *)
Definition timeLimitFieldValid (st : State) : bool :=
  match timeLimitFieldValue (timeLimit (quizDetails st)) with
  | Some z => 1 <=? z
  | None => false
  end.

(** The audience select is [required] too, but each of its options has
    a value, so it is always met. *)
Definition formValid (st : State) : bool :=
  titleFieldValid st && gradeFieldValid st && timeLimitFieldValid st.

(** ** The page as a transition system

    The form's transition system with the browser's validation added:
    a submit event is taken only when, besides the button being
    enabled, the form is valid. *)
Definition pageStep (f : Form) (e : Event) : option Form :=
  match e with
  | SubmitRequested _ => if formValid (state f) then step f e else None
  | _ => step f e
  end.

Fixpoint pageRun (f : Form) (events : list Event) : option Form :=
  match events with
  | [] => Some f
  | e :: rest =>
      match pageStep f e with
      | Some f' => pageRun f' rest
      | None => None
      end
  end.

End FormView.

(** Properties of whole runs of the form. *)
Module Invariants.
Import JS TestingQuizzes AuthContext CreateLiveQuiz Spec.

(** The names of the four inputs wired to [handleDetailsChange]. *)
Definition inputNames : list string :=
  ["title"; "grade"; "timeLimit"; "targetAudience"].

(** The event is one the rendered page can produce: a details change
    comes from one of the four inputs. *)
Definition FromPage (e : Event) : Prop :=
  match e with
  | DetailsChanged name _ => In name inputNames
  | _ => True
  end.

(** What a bundle handed to the service always satisfies. *)
Definition WellFormedCall (c : SaveCall) : Prop :=
  title (details (quizData c)) <> "" /\
  grade (details (quizData c)) <> "" /\
  ~ NonPositive (timeLimit (details (quizData c))) /\
  questions (quizData c) <> [] /\
  Forall QuestionRecord (questions (quizData c)) /\
  type (quizData c) = "live" /\
  exists now : Z, id (details (quizData c)) = "quiz_" ++ toString now.

(** Every question of the draft, and every bundle still out, is well
    formed; a bundle differs from the draft it was made of by its
    identifier only. *)
Definition Sound (f : Form) : Prop :=
  Forall QuestionRecord (quizQuestions (state f)) /\
  Forall (fun p =>
            WellFormedCall (call p) /\
            details (quizData (call p))
              = withId (submitted p) (id (details (quizData (call p)))))
         (saving f).

(** The rest of a text after a number: nothing, or something that
    does not go on with a decimal digit, nor with the [x] that would
    turn a leading zero into a hexadecimal prefix. *)
Definition EndsNumber (rest : string) : Prop :=
  match rest with
  | EmptyString => True
  | String c _ => digitValue 10 c = None /\ c <> "x"%char /\ c <> "X"%char
  end.

(** Every bundle still out carries a positive whole number of
    minutes. *)
Definition AllPositive (f : Form) : Prop :=
  Forall (fun p => PositiveInteger (timeLimit (details (quizData (call p)))))
         (saving f).

(** An error and a confirmation are never shown together, and neither
    is shown while a save is out. *)
Definition MessagesExclusive (f : Form) : Prop :=
  (formError (state f) = None \/ successMessage (state f) = None) /\
  (saving f <> [] ->
     formError (state f) = None /\ successMessage (state f) = None).

End Invariants.

(* ================================================================== *)
(** * Ingestion of an uploaded file                                    *)
(* ================================================================== *)

Module IngestionFacts.
Import JS TestingQuizzes CreateLiveQuiz Taxonomy Spec.

Lemma hasKey_In (name : string) (members : list (string * json)) :
  hasKey name members = true <-> exists value, In (name, value) members.
Proof.
  unfold hasKey. rewrite existsb_exists. split.
  - intros [[k v] [Hin Heq]]. apply String.eqb_eq in Heq.
    simpl in Heq. subst k. now exists v.
  - intros [v Hin]. exists (name, v). split; [assumption|].
    apply String.eqb_refl.
Qed.

Lemma in_HasProperty (name : string) (v : json) :
  in_ name v = Normal true <-> HasProperty name v.
Proof.
  destruct v; simpl; try (split; [discriminate | contradiction]).
  rewrite <- hasKey_In. split.
  - now injection 1.
  - now intros ->.
Qed.

Lemma isQuestion_true (item : json) :
  isQuestion item = Normal true <->
  HasProperty "id" item /\ HasProperty "question" item.
Proof.
  rewrite <- !in_HasProperty. unfold isQuestion.
  destruct (in_ "id" item) as [[|]|e]; simpl.
  - tauto.
  - split; [discriminate | intros [H _]; discriminate H].
  - split; [discriminate | intros [H _]; discriminate H].
Qed.

Lemma QuestionRecord_properties (item : json) :
  QuestionRecord item <->
  HasProperty "id" item /\ HasProperty "question" item.
Proof.
  destruct item; simpl; tauto.
Qed.

(** [every] accepts an array exactly when each element has both
    properties. *)
Lemma every_isQuestion_true (items : list json) :
  every isQuestion items = Normal true <-> Forall QuestionRecord items.
Proof.
  induction items as [|item rest IH]; simpl.
  - split; [constructor | reflexivity].
  - destruct (isQuestion item) as [[|]|e] eqn:Hitem; simpl.
    + rewrite IH. apply isQuestion_true in Hitem.
      apply QuestionRecord_properties in Hitem.
      split; [now constructor | now inversion 1].
    + split; [discriminate|]. inversion 1 as [|? ? Hq _]; subst.
      apply QuestionRecord_properties, isQuestion_true in Hq. congruence.
    + split; [discriminate|]. inversion 1 as [|? ? Hq _]; subst.
      apply QuestionRecord_properties, isQuestion_true in Hq. congruence.
Qed.

Lemma ShapeInvalid_not_all_records (items : list json) :
  ShapeInvalid (JArray items) -> ~ Forall QuestionRecord items.
Proof.
  intros [item [Hin Hlack]] Hall.
  rewrite Forall_forall in Hall. specialize (Hall item Hin).
  apply QuestionRecord_properties in Hall. tauto.
Qed.

(** On composite elements the membership test never throws. *)
Lemma every_isQuestion_composite (items : list json) :
  Forall Composite items -> exists ok, every isQuestion items = Normal ok.
Proof.
  induction 1 as [|item rest Hc _ IH]; simpl.
  - now exists true.
  - unfold isQuestion at 1.
    destruct item; try contradiction; simpl.
    + now exists false.
    + destruct (hasKey "id" members); simpl.
      * destruct (hasKey "question" members); simpl;
          [assumption | now exists false].
      * now exists false.
Qed.

(** The three ways [reader_onload] can end. *)
Lemma reader_onload_cases (result : JSON_parse_outcome) (st : State) :
  (exists items, result = Normal (JArray items) /\
      Forall QuestionRecord items /\
      reader_onload result st
        = setFileError None (setQuizQuestions items st))
  \/ reader_onload result st
       = setQuizQuestions [] (setFileError (Some msgInvalidFormat) st)
  \/ reader_onload result st
       = setQuizQuestions [] (setFileError (Some msgInvalidFile) st).
Proof.
  unfold reader_onload.
  destruct result as [data|e]; simpl; [|now right; right].
  destruct data; simpl; try (now right; left).
  destruct (every isQuestion elements) as [[|]|e] eqn:Hevery; simpl.
  - left. exists elements. apply every_isQuestion_true in Hevery.
    repeat split; assumption.
  - now right; left.
  - now right; right.
Qed.

(** Whatever is wrong with the shape, the questions are cleared and an
    error is shown; which of the two messages depends on whether the
    test ran into a primitive element before it found the offender. *)
Lemma shape_invalid_clears (data : json) (st : State) :
  ShapeInvalid data ->
  quizQuestions (reader_onload (Normal data) st) = [] /\
  (shownFileError (reader_onload (Normal data) st) = Some InvalidShape
   \/ shownFileError (reader_onload (Normal data) st)
       = Some MalformedInput).
Proof.
  intros Hbad.
  destruct (reader_onload_cases (Normal data) st)
    as [[items [Heq [Hall _]]] | [-> | ->]].
  - injection Heq as ->.
    now apply ShapeInvalid_not_all_records in Hbad.
  - split; [reflexivity | now left].
  - split; [reflexivity | now right].
Qed.

(** With no primitive among the elements the report is InvalidShape. *)
Lemma shape_invalid_composite (data : json) (st : State) :
  ShapeInvalid data ->
  Forall Composite (asArray data) ->
  quizQuestions (reader_onload (Normal data) st) = [] /\
  shownFileError (reader_onload (Normal data) st) = Some InvalidShape.
Proof.
  intros Hbad Hcomp. unfold reader_onload.
  destruct data; simpl; try (split; reflexivity).
  simpl in Hcomp.
  destruct (every_isQuestion_composite _ Hcomp) as [ok Hok].
  rewrite Hok. destruct ok; simpl; [|split; reflexivity].
  apply every_isQuestion_true in Hok.
  now apply ShapeInvalid_not_all_records in Hbad.
Qed.

(** Malformed text: [JSON.parse] throws, the questions are cleared. *)
Lemma malformed_clears (e : exn) (st : State) :
  quizQuestions (reader_onload (Throw e) st) = [] /\
  shownFileError (reader_onload (Throw e) st) = Some MalformedInput.
Proof.
  split; reflexivity.
Qed.

End IngestionFacts.

(** C2: an upload whose parsed value is not an array, or is an array
    with an element lacking [id] or [question], is said to fail with
    InvalidShape and to empty the question sequence.  On the array [[1]],
    whose only element has neither property, the test ['id' in item]
    throws on the number, the handler's [catch] takes over, and the
    error shown is the one for text that is not well-formed JSON:
    MalformedInput, not InvalidShape.  The questions are emptied. *)
Theorem C2_primitive_element_reported_as_malformed :
  forall st : CreateLiveQuiz.State,
    let upload := JS.JArray [JS.JNumber "1"] in
    let st' := CreateLiveQuiz.ingest (Some (JS.Normal upload)) st in
    Spec.ShapeInvalid upload /\
    CreateLiveQuiz.fileError st' = Some CreateLiveQuiz.msgInvalidFile /\
    Taxonomy.shownFileError st' = Some Taxonomy.MalformedInput /\
    Taxonomy.shownFileError st' <> Some Taxonomy.InvalidShape /\
    CreateLiveQuiz.quizQuestions st' = [].
Proof.
  intros st upload st'. repeat split.
  - exists (JS.JNumber "1"). split; [now left | left; exact (fun H => H)].
  - discriminate.
Qed.

(** C3: when the file's content parses as an array of records that each
    possess [id] and [question], ingestion succeeds: the question
    sequence becomes exactly the parsed array and the file error is
    cleared. *)
Theorem C3_well_formed_upload_accepted :
  forall (items : list JS.json) (st : CreateLiveQuiz.State),
    Forall Spec.QuestionRecord items ->
    let st' := CreateLiveQuiz.ingest (Some (JS.Normal (JS.JArray items))) st in
    CreateLiveQuiz.quizQuestions st' = items /\
    CreateLiveQuiz.fileError st' = None /\
    Taxonomy.shownFileError st' = None.
Proof.
  intros items st Hall. cbv zeta.
  unfold CreateLiveQuiz.ingest, CreateLiveQuiz.handleFileChange,
    CreateLiveQuiz.reader_onload.
  apply IngestionFacts.every_isQuestion_true in Hall.
  simpl. rewrite Hall. simpl. repeat split.
Qed.

Lemma C3_well_formed_upload_accepted_witness :
  let st' := CreateLiveQuiz.ingest
               (Some (JS.Normal (JS.JArray [Samples.q1; Samples.q1])))
               Samples.algebraDraft in
  CreateLiveQuiz.quizQuestions st' = [Samples.q1; Samples.q1] /\
  CreateLiveQuiz.fileError st' = None /\
  Taxonomy.shownFileError st' = None.
Proof.
  apply (C3_well_formed_upload_accepted [Samples.q1; Samples.q1]
           Samples.algebraDraft).
  repeat constructor; simpl; eexists; simpl; eauto.
Defined.

(** C10: whatever is selected (a good file, one of the wrong shape, one
    that does not parse, or nothing), ingestion leaves the quiz details
    as they were; of the state it writes the question sequence and the
    file error only.  This holds of the change handler, of the reader's
    callback whenever it runs, and of the two in a row. *)
Theorem C10_ingestion_leaves_details :
  forall (file : option CreateLiveQuiz.File)
         (result : JS.JSON_parse_outcome) (st : CreateLiveQuiz.State),
    Shorthand.SameOutsideUpload st (CreateLiveQuiz.ingest file st) /\
    Shorthand.SameOutsideUpload st
      (fst (CreateLiveQuiz.handleFileChange file st)) /\
    Shorthand.SameOutsideUpload st (CreateLiveQuiz.reader_onload result st).
Proof.
  intros file result st.
  assert (Hload : forall r,
            Shorthand.SameOutsideUpload st (CreateLiveQuiz.reader_onload r st)).
  { intros r.
    destruct (IngestionFacts.reader_onload_cases r st)
      as [[items [_ [_ ->]]] | [-> | ->]]; repeat split. }
  split; [|split].
  - destruct file as [r|]; [apply Hload | repeat split].
  - destruct file; repeat split.
  - apply Hload.
Qed.

(* ================================================================== *)
(** * Submission                                                       *)
(* ================================================================== *)

Module SubmissionFacts.
Import JS TestingQuizzes AuthContext CreateLiveQuiz Taxonomy Spec.
Import Shorthand.

Lemma isEmpty_true (s : string) : isEmpty s = true <-> s = "".
Proof.
  destruct s; simpl; split; congruence.
Qed.

Lemma le_zero_true (n : number) : le n (Num 0) = true <-> NonPositive n.
Proof.
  unfold NonPositive. destruct n as [|z| |]; simpl; split.
  - discriminate.
  - intros [[z [Hz _]] | Hz]; discriminate Hz.
  - intros H. left. exists z. split; [reflexivity | now apply Z.leb_le].
  - intros [[z' [Hz Hle]] | Hz]; [|discriminate Hz].
    injection Hz as ->. now apply Z.leb_le.
  - discriminate.
  - intros [[z [Hz _]] | Hz]; discriminate Hz.
  - now right.
  - reflexivity.
Qed.

Lemma PositiveInteger_not_NonPositive (n : number) :
  PositiveInteger n -> ~ NonPositive n.
Proof.
  intros [z [-> Hpos]] [[z' [Heq Hle]] | Heq]; [|discriminate Heq].
  injection Heq as <-. lia.
Qed.

Lemma NaN_not_PositiveInteger : ~ PositiveInteger NaN.
Proof.
  intros [z [Hz _]]. discriminate Hz.
Qed.

(** The handler's test of the details is the specification's. *)
Lemma details_test (d : QuizDetails) :
  isEmpty (title d) || isEmpty (grade d) || le (timeLimit d) (Num 0) = true
  <-> DetailsIncomplete d.
Proof.
  unfold DetailsIncomplete.
  rewrite !orb_true_iff, !isEmpty_true, le_zero_true. tauto.
Qed.

Lemma no_questions_test (q : list QuizQuestion) :
  (List.length q =? 0)%nat = true <-> q = [].
Proof.
  destruct q; simpl; split; congruence.
Qed.

(** The four ways through the checks, in the order they are made. *)
Lemma handleSubmit_to_await_cases (a : Auth) (now : Z) (st : State) :
  (AuthUnresolved a /\
     handleSubmit_to_await a now st
       = (setFormError (Some msgAuth) (cleared st), None))
  \/ (~ AuthUnresolved a /\ DetailsIncomplete (quizDetails st) /\
     handleSubmit_to_await a now st
       = (setFormError (Some msgDetails) (cleared st), None))
  \/ (~ AuthUnresolved a /\ ~ DetailsIncomplete (quizDetails st) /\
     quizQuestions st = [] /\
     handleSubmit_to_await a now st
       = (setFormError (Some msgQuestions) (cleared st), None))
  \/ (exists user,
        authLoading a = false /\ currentUser a = Some user /\
        ~ DetailsIncomplete (quizDetails st) /\ quizQuestions st <> [] /\
        handleSubmit_to_await a now st
          = (setIsSubmitting true (cleared st), Some (issued user now st))).
Proof.
  unfold handleSubmit_to_await, AuthUnresolved.
  destruct (authLoading a) eqn:Hload; [left; split; [now left | reflexivity]|].
  destruct (currentUser a) as [user|] eqn:Huser;
    [|left; split; [now right | reflexivity]].
  right.
  assert (Hauth : ~ (false = true \/ Some user = None))
    by (intros [H|H]; discriminate H).
  change (quizDetails (setSuccessMessage None (setFormError None st)))
    with (quizDetails st).
  change (quizQuestions (setSuccessMessage None (setFormError None st)))
    with (quizQuestions st).
  destruct (isEmpty (title (quizDetails st))
            || isEmpty (grade (quizDetails st))
            || le (timeLimit (quizDetails st)) (Num 0)) eqn:Hdetails.
  - left. apply details_test in Hdetails. repeat split; assumption.
  - right.
    assert (Hcomplete : ~ DetailsIncomplete (quizDetails st))
      by (rewrite <- details_test; congruence).
    destruct (List.length (quizQuestions st) =? 0)%nat eqn:Hq.
    + left. apply no_questions_test in Hq. repeat split; assumption.
    + right. exists user. repeat split; try assumption.
      rewrite <- no_questions_test. congruence.
Qed.

Lemma validation_messages_kind :
  formErrorKind msgAuth = Some ValidationFailed /\
  formErrorKind msgDetails = Some ValidationFailed /\
  formErrorKind msgQuestions = Some ValidationFailed.
Proof.
  repeat split.
Qed.

Lemma save_failure_kind (reason : string) :
  formErrorKind (msgSaveFailedPrefix ++ reason) = Some PersistenceFailed.
Proof.
  unfold formErrorKind, hasPrefix, msgSaveFailedPrefix, msgAuth,
    msgDetails, msgQuestions.
  cbn. now destruct reason.
Qed.

Lemma append_empty_r (s : string) : s ++ "" = s.
Proof.
  induction s as [|c s IH]; simpl; [reflexivity | now rewrite IH].
Qed.

Lemma orElse_carries (s fallback : string) :
  Carries (msgSaveFailedPrefix ++ orElse s fallback) s.
Proof.
  destruct s as [|c s].
  - exists (msgSaveFailedPrefix ++ orElse "" fallback).
    symmetry. apply append_empty_r.
  - now exists msgSaveFailedPrefix.
Qed.

(** The generated identifier is never empty. *)
Lemma newQuizId_nonempty (now : Z) : "quiz_" ++ toString now <> "".
Proof.
  discriminate.
Qed.

(** The continuation on success, whatever the state has become while
    the call was out. *)
Lemma from_await_fulfilled (submitted : QuizDetails) (quizId : string)
    (st : State) :
  let st' := handleSubmit_from_await submitted (Fulfilled quizId) st in
  successMessage st' = Some (msgSuccess (title submitted) quizId) /\
  quizDetails st' = defaultDetails /\
  quizQuestions st' = [] /\
  isSubmitting st' = false.
Proof.
  repeat split.
Qed.

(** The continuation on failure touches the form error and the
    submitting flag, nothing else. *)
Lemma from_await_rejected (submitted : QuizDetails) (reason : Error)
    (st : State) :
  let st' := handleSubmit_from_await submitted (Rejected reason) st in
  formError st'
    = Some (msgSaveFailedPrefix ++ orElse (message reason) "Unknown error") /\
  quizDetails st' = quizDetails st /\
  quizQuestions st' = quizQuestions st /\
  fileError st' = fileError st /\
  successMessage st' = successMessage st /\
  isSubmitting st' = false.
Proof.
  repeat split.
Qed.

(** A run that made a call passed every check. *)
Lemma handleSubmit_called
    (save : SaveCall -> liveQuizServices.SaveOutcome)
    (a : Auth) (now : Z) (st : State) (c : SaveCall) :
  snd (handleSubmit save a now st) = [c] ->
  handleSubmit save a now st
    = (handleSubmit_from_await (quizDetails st) (save c)
         (setIsSubmitting true (cleared st)), [c]) /\
  exists user, currentUser a = Some user /\ c = issued user now st.
Proof.
  unfold handleSubmit.
  destruct (handleSubmit_to_await_cases a now st)
    as [[_ ->] | [[_ [_ ->]] | [[_ [_ [_ ->]]] | [user [_ [Hu [_ [_ ->]]]]]]]];
    simpl; try discriminate.
  intros Hc. injection Hc as <-. split; [reflexivity|].
  now exists user.
Qed.

End SubmissionFacts.

(** C1: from a draft in which the title is empty, or the grade is
    empty, or the time limit is at most zero, or there are no questions,
    or auth is unresolved or nobody is signed in, submitting shows a
    ValidationFailed error and makes no save call.  The checks run in
    the order auth, details, questions, and the first that fails gives
    the reason shown. *)
Theorem C1_invalid_draft_rejected :
  forall (save : CreateLiveQuiz.SaveCall -> liveQuizServices.SaveOutcome)
         (a : AuthContext.Auth) (now : Z) (st : CreateLiveQuiz.State),
    Spec.AuthUnresolved a
    \/ Spec.DetailsIncomplete (CreateLiveQuiz.quizDetails st)
    \/ CreateLiveQuiz.quizQuestions st = [] ->
    let result := CreateLiveQuiz.handleSubmit save a now st in
    snd result = [] /\
    snd (CreateLiveQuiz.handleSubmit_to_await a now st) = None /\
    Taxonomy.shownFormError (fst result) = Some Taxonomy.ValidationFailed /\
    (Spec.AuthUnresolved a ->
       CreateLiveQuiz.formError (fst result) = Some CreateLiveQuiz.msgAuth) /\
    (~ Spec.AuthUnresolved a ->
     Spec.DetailsIncomplete (CreateLiveQuiz.quizDetails st) ->
       CreateLiveQuiz.formError (fst result)
         = Some CreateLiveQuiz.msgDetails) /\
    (~ Spec.AuthUnresolved a ->
     ~ Spec.DetailsIncomplete (CreateLiveQuiz.quizDetails st) ->
       CreateLiveQuiz.formError (fst result)
         = Some CreateLiveQuiz.msgQuestions).
Proof.
  intros save a now st Hbad. cbv zeta. unfold CreateLiveQuiz.handleSubmit.
  destruct (SubmissionFacts.handleSubmit_to_await_cases a now st)
    as [[Ha ->] | [[Ha [Hd ->]] | [[Ha [Hd [Hq ->]]]
       | [user [Hl [Hu [Hd [Hq _]]]]]]]]; simpl.
  - repeat split; tauto.
  - repeat split; tauto.
  - repeat split; tauto.
  - exfalso. destruct Hbad as [[H|H] | [H|H]]; try tauto; congruence.
Qed.

Lemma C1_invalid_draft_rejected_witness :
  let result :=
    CreateLiveQuiz.handleSubmit
      (fun _ => JS.Fulfilled "doc-1") Samples.teacher 1700000000000
      (CreateLiveQuiz.handleDetailsChange "timeLimit" "-5"
         Samples.algebraDraft) in
  snd result = [] /\
  CreateLiveQuiz.formError (fst result) = Some CreateLiveQuiz.msgDetails.
Proof.
  pose proof
    (C1_invalid_draft_rejected
       (fun _ => JS.Fulfilled "doc-1") Samples.teacher 1700000000000
       (CreateLiveQuiz.handleDetailsChange "timeLimit" "-5"
          Samples.algebraDraft)) as H.
  assert (Hincomplete :
    Spec.DetailsIncomplete
      (CreateLiveQuiz.quizDetails
         (CreateLiveQuiz.handleDetailsChange "timeLimit" "-5"
            Samples.algebraDraft))).
  { right. right. left. exists (-5). split; [reflexivity | lia]. }
  destruct (H (or_intror (or_introl Hincomplete)))
    as [Hcalls [_ [_ [_ [Hmsg _]]]]].
  split; [exact Hcalls|].
  apply Hmsg; [|exact Hincomplete].
  intros [Hl|Hu]; discriminate.
Defined.

(** C4: when the save of a submission succeeds, the confirmation shown
    names the draft's title and the identifier the service returned,
    the details are back to {id:"", title:"", grade:"", timeLimit:0,
    targetAudience:"authenticated"}, and no questions are left. *)
Theorem C4_success_confirms_and_resets :
  forall (save : CreateLiveQuiz.SaveCall -> liveQuizServices.SaveOutcome)
         (a : AuthContext.Auth) (now : Z) (st : CreateLiveQuiz.State)
         (c : CreateLiveQuiz.SaveCall) (quizId : string),
    snd (CreateLiveQuiz.handleSubmit save a now st) = [c] ->
    save c = JS.Fulfilled quizId ->
    let st' := fst (CreateLiveQuiz.handleSubmit save a now st) in
    CreateLiveQuiz.successMessage st'
      = Some ("Quiz " ++ CreateLiveQuiz.dquote
                ++ TestingQuizzes.title (CreateLiveQuiz.quizDetails st)
                ++ CreateLiveQuiz.dquote
                ++ " added/updated successfully with ID: " ++ quizId) /\
    CreateLiveQuiz.formError st' = None /\
    CreateLiveQuiz.quizDetails st'
      = {| TestingQuizzes.id := ""; TestingQuizzes.title := "";
           TestingQuizzes.grade := ""; TestingQuizzes.timeLimit := JS.Num 0;
           TestingQuizzes.targetAudience := "authenticated" |} /\
    CreateLiveQuiz.quizQuestions st' = [] /\
    CreateLiveQuiz.isSubmitting st' = false.
Proof.
  intros save a now st c quizId Hc Hsave.
  destruct (SubmissionFacts.handleSubmit_called save a now st c Hc)
    as [-> _].
  rewrite Hsave. repeat split.
Qed.

Lemma C4_success_confirms_and_resets_witness :
  let st' :=
    fst (CreateLiveQuiz.handleSubmit (fun _ => JS.Fulfilled "doc-1")
           Samples.teacher 1700000000000 Samples.algebraDraft) in
  CreateLiveQuiz.successMessage st'
    = Some ("Quiz " ++ CreateLiveQuiz.dquote ++ "Algebra"
              ++ CreateLiveQuiz.dquote
              ++ " added/updated successfully with ID: doc-1") /\
  CreateLiveQuiz.quizDetails st' = CreateLiveQuiz.defaultDetails /\
  CreateLiveQuiz.quizQuestions st' = [].
Proof.
  destruct
    (C4_success_confirms_and_resets (fun _ => JS.Fulfilled "doc-1")
       Samples.teacher 1700000000000 Samples.algebraDraft
       (Shorthand.issued {| AuthContext.uid := "teacher-1" |}
          1700000000000 Samples.algebraDraft)
       "doc-1" eq_refl eq_refl)
    as [Hmsg [_ [Hd [Hq _]]]].
  repeat split; assumption.
Defined.

(** C5: when the save rejects, a PersistenceFailed error carrying the
    service's message is shown, and the quiz details and the question
    sequence are exactly as they were before the attempt. *)
Theorem C5_failure_reports_and_preserves :
  forall (save : CreateLiveQuiz.SaveCall -> liveQuizServices.SaveOutcome)
         (a : AuthContext.Auth) (now : Z) (st : CreateLiveQuiz.State)
         (c : CreateLiveQuiz.SaveCall) (reason : JS.Error),
    snd (CreateLiveQuiz.handleSubmit save a now st) = [c] ->
    save c = JS.Rejected reason ->
    let st' := fst (CreateLiveQuiz.handleSubmit save a now st) in
    (exists shown,
       CreateLiveQuiz.formError st' = Some shown /\
       shown = "Failed to save quiz: "
                 ++ JS.orElse (JS.message reason) "Unknown error" /\
       Spec.Carries shown (JS.message reason)) /\
    Taxonomy.shownFormError st' = Some Taxonomy.PersistenceFailed /\
    CreateLiveQuiz.successMessage st' = None /\
    CreateLiveQuiz.quizDetails st' = CreateLiveQuiz.quizDetails st /\
    CreateLiveQuiz.quizQuestions st' = CreateLiveQuiz.quizQuestions st /\
    CreateLiveQuiz.isSubmitting st' = false.
Proof.
  intros save a now st c reason Hc Hsave.
  destruct (SubmissionFacts.handleSubmit_called save a now st c Hc)
    as [-> _].
  rewrite Hsave. cbv zeta. split; [|split].
  - eexists. split; [reflexivity|]. split; [reflexivity|].
    apply SubmissionFacts.orElse_carries.
  - apply (SubmissionFacts.save_failure_kind
             (JS.orElse (JS.message reason) "Unknown error")).
  - repeat split.
Qed.

Lemma C5_failure_reports_and_preserves_witness :
  let st' :=
    fst (CreateLiveQuiz.handleSubmit
           (fun _ => JS.Rejected {| JS.message := "permission-denied" |})
           Samples.teacher 1700000000000 Samples.algebraDraft) in
  CreateLiveQuiz.formError st'
    = Some "Failed to save quiz: permission-denied" /\
  CreateLiveQuiz.quizDetails st' = Samples.algebra /\
  CreateLiveQuiz.quizQuestions st' = [Samples.q1].
Proof.
  destruct
    (C5_failure_reports_and_preserves
       (fun _ => JS.Rejected {| JS.message := "permission-denied" |})
       Samples.teacher 1700000000000 Samples.algebraDraft
       (Shorthand.issued {| AuthContext.uid := "teacher-1" |}
          1700000000000 Samples.algebraDraft)
       {| JS.message := "permission-denied" |} eq_refl eq_refl)
    as [[shown [Hshown [Heq _]]] [_ [_ [Hd [Hq _]]]]].
  split; [rewrite Hshown, Heq; reflexivity | split; assumption].
Defined.


(* ================================================================== *)
(** * One submission at a time                                         *)
(* ================================================================== *)

Module GuardFacts.
Import JS TestingQuizzes AuthContext CreateLiveQuiz Spec Shorthand.

Lemma reader_onload_isSubmitting (r : JSON_parse_outcome) (st : State) :
  isSubmitting (reader_onload r st) = isSubmitting st.
Proof.
  destruct (IngestionFacts.reader_onload_cases r st)
    as [[items [_ [_ ->]]] | [-> | ->]]; reflexivity.
Qed.

Lemma handleFileChange_isSubmitting (file : option File) (st : State) :
  isSubmitting (fst (handleFileChange file st)) = isSubmitting st.
Proof.
  destruct file; reflexivity.
Qed.

Lemma enabled_not_submitting (a : Auth) (st : State) :
  submitDisabled a st = false -> isSubmitting st = false.
Proof.
  unfold submitDisabled. destruct (isSubmitting st); simpl; congruence.
Qed.

Lemma submitting_disables (a : Auth) (st : State) :
  isSubmitting st = true -> submitDisabled a st = true.
Proof.
  unfold submitDisabled. now intros ->.
Qed.

(** Up to the [await], the flag is raised exactly when a call goes
    out. *)
Lemma to_await_isSubmitting (a : Auth) (now : Z) (st : State) :
  match snd (handleSubmit_to_await a now st) with
  | Some _ => isSubmitting (fst (handleSubmit_to_await a now st)) = true
  | None =>
      isSubmitting (fst (handleSubmit_to_await a now st)) = isSubmitting st
  end.
Proof.
  destruct (SubmissionFacts.handleSubmit_to_await_cases a now st)
    as [[_ ->] | [[_ [_ ->]] | [[_ [_ [_ ->]]] | [user [_ [_ [_ [_ ->]]]]]]]];
    reflexivity.
Qed.

Lemma from_await_isSubmitting (d : QuizDetails)
    (outcome : liveQuizServices.SaveOutcome) (st : State) :
  isSubmitting (handleSubmit_from_await d outcome st) = false.
Proof.
  reflexivity.
Qed.

Lemma mounted_Guarded (a : Auth) : Guarded (mounted a).
Proof.
  left. split; reflexivity.
Qed.

Lemma step_Guarded (f f' : Form) (e : Event) :
  Guarded f -> step f e = Some f' -> Guarded f'.
Proof.
  intros Hg Hstep. destruct e as [a | name value | file | n | now | n outcome];
    simpl in Hstep.
  - injection Hstep as <-. exact Hg.
  - injection Hstep as <-. exact Hg.
  - pose proof (handleFileChange_isSubmitting file (state f)) as Hflag.
    destruct (handleFileChange file (state f)) as [st started].
    injection Hstep as <-. simpl in *.
    unfold Guarded. simpl. now rewrite Hflag.
  - destruct (nth_error (reading f) n) as [r|]; [|discriminate].
    injection Hstep as <-. unfold Guarded. simpl.
    now rewrite reader_onload_isSubmitting.
  - destruct (submitDisabled (auth f) (state f)) eqn:Hdis; [discriminate|].
    apply enabled_not_submitting in Hdis.
    pose proof (to_await_isSubmitting (auth f) now (state f)) as Hflag.
    destruct (handleSubmit_to_await (auth f) now (state f)) as [st issued].
    injection Hstep as <-. simpl in Hflag.
    destruct Hg as [[Hnone _] | [p [_ Htrue]]]; [|congruence].
    unfold Guarded. simpl. rewrite Hnone.
    destruct issued as [c|].
    + right. eexists. split; [reflexivity | exact Hflag].
    + left. split; [reflexivity | congruence].
  - destruct (nth_error (saving f) n) as [p|] eqn:Hnth; [|discriminate].
    injection Hstep as <-.
    destruct Hg as [[Hnone _] | [q [Hone _]]].
    + rewrite Hnone in Hnth. destruct n; discriminate Hnth.
    + left. simpl. split; [|reflexivity].
      rewrite Hone in *. destruct n as [|n]; [reflexivity|].
      destruct n; discriminate Hnth.
Qed.

Lemma run_Guarded (events : list Event) :
  forall f f', Guarded f -> run f events = Some f' -> Guarded f'.
Proof.
  induction events as [|e rest IH]; simpl; intros f f' Hg Hrun.
  - now injection Hrun as <-.
  - destruct (step f e) as [f1|] eqn:Hstep; [|discriminate].
    eapply IH; [|exact Hrun]. eapply step_Guarded; eassumption.
Qed.

End GuardFacts.

(** C9: at most one submission is in flight per form.  In every state
    the mounted form can reach, no two saves are out together; while one
    is out the submitting flag is set and the submit action cannot be
    taken; and the flag is set only while one is out. *)
Theorem C9_one_submission_in_flight :
  forall (a : AuthContext.Auth) (events : list CreateLiveQuiz.Event)
         (f : CreateLiveQuiz.Form),
    CreateLiveQuiz.run (CreateLiveQuiz.mounted a) events = Some f ->
    (List.length (CreateLiveQuiz.saving f) <= 1)%nat /\
    (CreateLiveQuiz.saving f <> [] <->
       CreateLiveQuiz.isSubmitting (CreateLiveQuiz.state f) = true) /\
    (CreateLiveQuiz.saving f <> [] ->
       forall now : Z,
         CreateLiveQuiz.step f (CreateLiveQuiz.SubmitRequested now) = None).
Proof.
  intros a events f Hrun.
  assert (Hg : Shorthand.Guarded f)
    by (eapply GuardFacts.run_Guarded;
        [apply GuardFacts.mounted_Guarded | exact Hrun]).
  destruct Hg as [[Hnone Hflag] | [p [Hone Hflag]]].
  - rewrite Hnone, Hflag. simpl. repeat split; try lia; try congruence.
  - rewrite Hone, Hflag. simpl. repeat split; try lia; try congruence.
    intros _ now. unfold CreateLiveQuiz.submitDisabled.
    now rewrite Hflag.
Qed.

Lemma C9_one_submission_in_flight_witness :
  (List.length (CreateLiveQuiz.saving Samples.submittedForm) <= 1)%nat /\
  (CreateLiveQuiz.saving Samples.submittedForm <> [] <->
     CreateLiveQuiz.isSubmitting
       (CreateLiveQuiz.state Samples.submittedForm) = true) /\
  (CreateLiveQuiz.saving Samples.submittedForm <> [] ->
     forall now : Z,
       CreateLiveQuiz.step Samples.submittedForm
         (CreateLiveQuiz.SubmitRequested now) = None).
Proof.
  apply (C9_one_submission_in_flight Samples.teacher
           Samples.submittedEvents Samples.submittedForm).
  reflexivity.
Defined.

(* ================================================================== *)
(** * The listing's order                                              *)
(* ================================================================== *)

Module ListingFacts.
Import JS TestingQuizzes liveQuizServices LiveTest Spec Shorthand.

Section Sorting.
Context {A : Type} (compare : A -> A -> Z).

Lemma sortInsert_Permutation (x : A) (l : list A) :
  Permutation (x :: l) (sortInsert compare x l).
Proof.
  induction l as [|y rest IH]; simpl; [reflexivity|].
  destruct (compare x y <=? 0); [reflexivity|].
  rewrite perm_swap. now apply perm_skip.
Qed.

Lemma sort_Permutation (l : list A) : Permutation l (sort compare l).
Proof.
  induction l as [|x rest IH]; simpl; [reflexivity|].
  rewrite <- sortInsert_Permutation. now apply perm_skip.
Qed.

(** A comparator that decides a total preorder: insertion keeps a
    sorted list sorted. *)
Variable before : A -> A -> Prop.
Hypothesis before_trans :
  forall a b c, before a b -> before b c -> before a c.
Hypothesis compare_before :
  forall a b, compare a b <= 0 -> before a b.
Hypothesis compare_after :
  forall a b, ~ compare a b <= 0 -> before b a.

Lemma sortInsert_sorted (x : A) (l : list A) :
  StronglySorted before l -> StronglySorted before (sortInsert compare x l).
Proof.
  induction 1 as [|y rest Hsorted IH Hall]; simpl.
  - repeat constructor.
  - destruct (compare x y <=? 0) eqn:Hcmp.
    + apply Z.leb_le, compare_before in Hcmp.
      constructor; [now constructor|].
      constructor; [assumption|].
      eapply Forall_impl; [|exact Hall].
      intros z Hz. eapply before_trans; eassumption.
    + assert (Hyx : before y x)
        by (apply compare_after; rewrite <- Z.leb_le; congruence).
      constructor; [assumption|].
      eapply Permutation_Forall; [apply sortInsert_Permutation|].
      now constructor.
Qed.

Lemma sort_sorted (l : list A) : StronglySorted before (sort compare l).
Proof.
  induction l as [|x rest IH]; simpl;
    [constructor | now apply sortInsert_sorted].
Qed.

End Sorting.

Lemma sort_NotOlder (l : list LiveQuizData) :
  StronglySorted NotOlder (sort byCreationDesc l).
Proof.
  apply sort_sorted; unfold NotOlder, byCreationDesc; intros; lia.
Qed.

(** With distinct timestamps, "no older" is "newer". *)
Lemma NotOlder_distinct (l : list LiveQuizData) :
  StronglySorted NotOlder l -> NoDup (millis l) -> NewestFirst l.
Proof.
  unfold NewestFirst.
  induction 1 as [|a rest Hsorted IH Hall]; simpl; intros Hnd.
  - constructor.
  - inversion Hnd as [|? ? Hnotin Hnd']; subst.
    constructor; [now apply IH|].
    rewrite Forall_forall in *. intros b Hb.
    specialize (Hall b Hb). unfold NotOlder in Hall.
    assert (toMillis (createdAt a) <> toMillis (createdAt b)).
    { intros Heq. apply Hnotin. rewrite Heq.
      exact (in_map (fun q => toMillis (createdAt q)) rest b Hb). }
    lia.
Qed.

Lemma sort_nonempty (l : list LiveQuizData) :
  l <> [] -> (List.length (sort byCreationDesc l) =? 0)%nat = false.
Proof.
  intros Hl. rewrite <- (Permutation_length (sort_Permutation _ l)).
  destruct l; [contradiction | reflexivity].
Qed.

End ListingFacts.

(** C7: the fetched non-archived quizzes, when their creation times are
    distinct, are shown with the most recent first: the list kept and
    rendered holds the same quizzes, each created strictly later than
    all that follow it. *)
Theorem C7_listing_newest_first :
  forall (fetched : list liveQuizServices.LiveQuizData)
         (st : LiveTest.State),
    NoDup (Spec.millis fetched) ->
    let st' := LiveTest.fetchQuizzes (JS.Fulfilled fetched) st in
    Permutation fetched (LiveTest.quizzes st') /\
    Spec.NewestFirst (LiveTest.quizzes st') /\
    (fetched <> [] ->
       LiveTest.render st'
         = LiveTest.Cards (map LiveTest.card (LiveTest.quizzes st'))).
Proof.
  intros fetched st Hnd. cbv zeta.
  unfold LiveTest.fetchQuizzes, LiveTest.fetchQuizzes_from_await. simpl.
  pose proof (ListingFacts.sort_Permutation LiveTest.byCreationDesc fetched)
    as Hperm.
  split; [exact Hperm|]. split.
  - apply ListingFacts.NotOlder_distinct.
    + apply ListingFacts.sort_NotOlder.
    + unfold Spec.millis. eapply Permutation_NoDup; [|exact Hnd].
      now apply Permutation_map.
  - intros Hne. unfold LiveTest.render, LiveTest.errorToShow. simpl.
    now rewrite (ListingFacts.sort_nonempty fetched Hne).
Qed.

Lemma C7_listing_newest_first_witness :
  let fetched :=
    [Samples.quizAt "a" 100; Samples.quizAt "b" 300; Samples.quizAt "c" 200] in
  let st' :=
    LiveTest.fetchQuizzes (JS.Fulfilled fetched) LiveTest.initialState in
  Spec.millis (LiveTest.quizzes st') = [300; 200; 100] /\
  map LiveTest.key
    match LiveTest.render st' with
    | LiveTest.Cards cards => cards
    | _ => []
    end = ["b"; "c"; "a"] /\
  Spec.NewestFirst (LiveTest.quizzes st').
Proof.
  cbv zeta.
  destruct
    (C7_listing_newest_first
       [Samples.quizAt "a" 100; Samples.quizAt "b" 300; Samples.quizAt "c" 200]
       LiveTest.initialState)
    as [_ [Hsorted Hrender]].
  - repeat constructor; simpl; intuition discriminate.
  - split; [reflexivity|]. split; [|exact Hsorted].
    rewrite Hrender by discriminate. reflexivity.
Defined.

(* ================================================================== *)
(** * Further properties of the upload handler                         *)
(* ================================================================== *)

Module UploadFacts.
Import JS TestingQuizzes CreateLiveQuiz Spec.

Lemma reader_onload_accepts (items : list json) (st : State) :
  Forall QuestionRecord items ->
  reader_onload (Normal (JArray items)) st
  = setFileError None (setQuizQuestions items st).
Proof.
  intros Hall. apply IngestionFacts.every_isQuestion_true in Hall.
  unfold reader_onload. simpl. now rewrite Hall.
Qed.

End UploadFacts.

(** An upload is accepted, that is, leaves no file error, exactly when
    its text parsed to an array of records that each have [id] and
    [question]; whenever an error is left, the questions are empty. *)
Theorem upload_accepted_iff :
  forall (result : JS.JSON_parse_outcome) (st : CreateLiveQuiz.State),
    let st' := CreateLiveQuiz.reader_onload result st in
    (CreateLiveQuiz.fileError st' = None <->
       exists items,
         result = JS.Normal (JS.JArray items) /\
         Forall Spec.QuestionRecord items /\
         CreateLiveQuiz.quizQuestions st' = items) /\
    (CreateLiveQuiz.fileError st' <> None ->
       CreateLiveQuiz.quizQuestions st' = []).
Proof.
  intros result st. cbv zeta.
  destruct (IngestionFacts.reader_onload_cases result st)
    as [[items [Hres [Hall Heq]]] | [Heq | Heq]].
  - rewrite Heq. simpl. split; [|congruence]. split; [|reflexivity].
    intros _. exists items. repeat split; assumption.
  - split; [|now rewrite Heq]. split; [now rewrite Heq|].
    intros [items [-> [Hall _]]].
    rewrite (UploadFacts.reader_onload_accepts items st Hall) in Heq.
    apply (f_equal CreateLiveQuiz.fileError) in Heq. discriminate Heq.
  - split; [|now rewrite Heq]. split; [now rewrite Heq|].
    intros [items [-> [Hall _]]].
    rewrite (UploadFacts.reader_onload_accepts items st Hall) in Heq.
    apply (f_equal CreateLiveQuiz.fileError) in Heq. discriminate Heq.
Qed.

(** A load replaces what an earlier load left, questions and error
    alike: nothing of the earlier upload is merged or kept. *)
Theorem later_upload_overwrites :
  forall (earlier later : JS.JSON_parse_outcome) (st : CreateLiveQuiz.State),
    CreateLiveQuiz.reader_onload later
      (CreateLiveQuiz.reader_onload earlier st)
    = CreateLiveQuiz.reader_onload later st.
Proof.
  intros earlier later st.
  destruct (IngestionFacts.reader_onload_cases earlier st)
    as [[items [_ [_ ->]]] | [-> | ->]];
    unfold CreateLiveQuiz.reader_onload;
    destruct later as [data|e]; simpl; try reflexivity;
    destruct (if JS.isArray data
              then JS.every CreateLiveQuiz.isQuestion
                     (CreateLiveQuiz.asArray data)
              else JS.Normal false) as [[|]|e]; reflexivity.
Qed.

(** Deselecting the file empties the questions and the error whatever
    was there, and a later load still decides alone. *)
Theorem deselecting_clears_upload :
  forall (result : JS.JSON_parse_outcome) (st : CreateLiveQuiz.State),
    let st' := CreateLiveQuiz.ingest None
                 (CreateLiveQuiz.reader_onload result st) in
    CreateLiveQuiz.quizQuestions st' = [] /\
    CreateLiveQuiz.fileError st' = None /\
    st' = CreateLiveQuiz.ingest None st /\
    FormView.preview st' = None.
Proof.
  intros result st. cbv zeta.
  destruct (IngestionFacts.reader_onload_cases result st)
    as [[items [_ [_ ->]]] | [-> | ->]]; repeat split.
Qed.

(* ================================================================== *)
(** * Further properties of the details inputs                         *)
(* ================================================================== *)

Module DetailsFacts.
Import JS TestingQuizzes CreateLiveQuiz.

(** A name is one of the five fields, or the update changes nothing. *)
Lemma setField_cases (name : string) :
  name = "timeLimit" \/ name = "title" \/ name = "grade"
  \/ name = "targetAudience" \/ name = "id"
  \/ (forall value d, setField name value d = d).
Proof.
  unfold setField.
  destruct (String.eqb_spec name "timeLimit"); [now left|].
  destruct (String.eqb_spec name "title"); [now right; left|].
  destruct (String.eqb_spec name "grade"); [now right; right; left|].
  destruct (String.eqb_spec name "targetAudience");
    [now right; right; right; left|].
  destruct (String.eqb_spec name "id"); [now right; right; right; right; left|].
  now right; right; right; right; right.
Qed.

Lemma setField_commute (n1 n2 v1 v2 : string) (d : QuizDetails) :
  n1 <> n2 ->
  setField n1 v1 (setField n2 v2 d) = setField n2 v2 (setField n1 v1 d).
Proof.
  intros Hne.
  destruct (setField_cases n1) as [-> | [-> | [-> | [-> | [-> | H1]]]]];
    destruct (setField_cases n2) as [-> | [-> | [-> | [-> | [-> | H2]]]]];
    try congruence; try reflexivity;
    try (now rewrite !H1); try (now rewrite !H2).
Qed.

Lemma setField_overwrite (name v1 v2 : string) (d : QuizDetails) :
  setField name v2 (setField name v1 d) = setField name v2 d.
Proof.
  destruct (setField_cases name) as [-> | [-> | [-> | [-> | [-> | H]]]]];
    try reflexivity.
  now rewrite !H.
Qed.

End DetailsFacts.

(** Edits of two different inputs can be made in either order: the
    draft ends up the same. *)
Theorem details_edits_commute :
  forall (n1 n2 v1 v2 : string) (st : CreateLiveQuiz.State),
    n1 <> n2 ->
    CreateLiveQuiz.handleDetailsChange n1 v1
      (CreateLiveQuiz.handleDetailsChange n2 v2 st)
    = CreateLiveQuiz.handleDetailsChange n2 v2
        (CreateLiveQuiz.handleDetailsChange n1 v1 st).
Proof.
  intros n1 n2 v1 v2 st Hne.
  unfold CreateLiveQuiz.handleDetailsChange, CreateLiveQuiz.setQuizDetails.
  simpl. now rewrite (DetailsFacts.setField_commute n1 n2 v1 v2 _ Hne).
Qed.

Lemma details_edits_commute_witness :
  CreateLiveQuiz.handleDetailsChange "title" "Algebra"
    (CreateLiveQuiz.handleDetailsChange "timeLimit" "10"
       CreateLiveQuiz.initialState)
  = CreateLiveQuiz.handleDetailsChange "timeLimit" "10"
      (CreateLiveQuiz.handleDetailsChange "title" "Algebra"
         CreateLiveQuiz.initialState).
Proof.
  apply (details_edits_commute "title" "timeLimit" "Algebra" "10"
           CreateLiveQuiz.initialState).
  discriminate.
Defined.

(** Of two edits of the same input the later one stands, and an edit
    touches nothing but the details. *)
Theorem details_last_edit_wins :
  forall (name v1 v2 : string) (st : CreateLiveQuiz.State),
    CreateLiveQuiz.handleDetailsChange name v2
      (CreateLiveQuiz.handleDetailsChange name v1 st)
    = CreateLiveQuiz.handleDetailsChange name v2 st /\
    CreateLiveQuiz.quizQuestions
      (CreateLiveQuiz.handleDetailsChange name v1 st)
      = CreateLiveQuiz.quizQuestions st /\
    CreateLiveQuiz.fileError
      (CreateLiveQuiz.handleDetailsChange name v1 st)
      = CreateLiveQuiz.fileError st.
Proof.
  intros name v1 v2 st. split; [|split; reflexivity].
  unfold CreateLiveQuiz.handleDetailsChange, CreateLiveQuiz.setQuizDetails.
  simpl. now rewrite DetailsFacts.setField_overwrite.
Qed.

(* ================================================================== *)
(** * [parseInt] on decimal text                                       *)
(* ================================================================== *)

Module ParseIntFacts.
Import JS Invariants.

Lemma digits_end (rest : string) (acc : Z) (count : nat) :
  EndsNumber rest -> digits 10 rest acc count = (acc, count).
Proof.
  destruct rest as [|c rest]; simpl; [reflexivity|].
  now intros [-> _].
Qed.

(** Reading the digits of a decimal numeral, with a positive
    accumulator. *)
Lemma digits_uint_pos (d : Decimal.uint) (rest : string) :
  EndsNumber rest ->
  forall (acc : positive) (count : nat),
    digits 10 (NilEmpty.string_of_uint d ++ rest) (Zpos acc) count
    = (Zpos (Pos.of_uint_acc d acc),
       (count + String.length (NilEmpty.string_of_uint d))%nat).
Proof.
  intros Hrest.
  induction d as [|d IH|d IH|d IH|d IH|d IH|d IH|d IH|d IH|d IH|d IH];
    intros acc count;
    [ simpl; rewrite (digits_end rest _ _ Hrest); f_equal; lia | .. ];
    cbn [NilEmpty.string_of_uint append digits String.length Pos.of_uint_acc];
    change (digitValue 10 _) with (Some 0) || change (digitValue 10 _) with (Some 1)
    || change (digitValue 10 _) with (Some 2) || change (digitValue 10 _) with (Some 3)
    || change (digitValue 10 _) with (Some 4) || change (digitValue 10 _) with (Some 5)
    || change (digitValue 10 _) with (Some 6) || change (digitValue 10 _) with (Some 7)
    || change (digitValue 10 _) with (Some 8) || change (digitValue 10 _) with (Some 9);
    cbv iota beta;
    match goal with
    | |- digits 10 _ ?a _ = (Zpos (Pos.of_uint_acc _ ?b), _) =>
        replace a with (Zpos b) by lia
    end;
    rewrite IH; f_equal; lia.
Qed.

Lemma digits_uint_zero (d : Decimal.uint) (rest : string) :
  EndsNumber rest ->
  forall count : nat,
    digits 10 (NilEmpty.string_of_uint d ++ rest) 0 count
    = (Z.of_N (Pos.of_uint d),
       (count + String.length (NilEmpty.string_of_uint d))%nat).
Proof.
  intros Hrest.
  induction d as [|d IH|d IH|d IH|d IH|d IH|d IH|d IH|d IH|d IH|d IH];
    intros count.
  - simpl. rewrite (digits_end rest _ _ Hrest). f_equal. lia.
  - cbn [NilEmpty.string_of_uint append digits String.length Pos.of_uint].
    change (digitValue 10 "0") with (Some 0). cbv iota beta.
    change (0 * 10 + 0) with 0. rewrite IH. f_equal. lia.
  - cbn [NilEmpty.string_of_uint append digits String.length Pos.of_uint].
    change (digitValue 10 "1") with (Some 1). cbv iota beta.
    change (0 * 10 + 1) with 1.
    rewrite (digits_uint_pos d rest Hrest). f_equal. lia.
  - cbn [NilEmpty.string_of_uint append digits String.length Pos.of_uint].
    change (digitValue 10 "2") with (Some 2). cbv iota beta.
    change (0 * 10 + 2) with 2.
    rewrite (digits_uint_pos d rest Hrest). f_equal. lia.
  - cbn [NilEmpty.string_of_uint append digits String.length Pos.of_uint].
    change (digitValue 10 "3") with (Some 3). cbv iota beta.
    change (0 * 10 + 3) with 3.
    rewrite (digits_uint_pos d rest Hrest). f_equal. lia.
  - cbn [NilEmpty.string_of_uint append digits String.length Pos.of_uint].
    change (digitValue 10 "4") with (Some 4). cbv iota beta.
    change (0 * 10 + 4) with 4.
    rewrite (digits_uint_pos d rest Hrest). f_equal. lia.
  - cbn [NilEmpty.string_of_uint append digits String.length Pos.of_uint].
    change (digitValue 10 "5") with (Some 5). cbv iota beta.
    change (0 * 10 + 5) with 5.
    rewrite (digits_uint_pos d rest Hrest). f_equal. lia.
  - cbn [NilEmpty.string_of_uint append digits String.length Pos.of_uint].
    change (digitValue 10 "6") with (Some 6). cbv iota beta.
    change (0 * 10 + 6) with 6.
    rewrite (digits_uint_pos d rest Hrest). f_equal. lia.
  - cbn [NilEmpty.string_of_uint append digits String.length Pos.of_uint].
    change (digitValue 10 "7") with (Some 7). cbv iota beta.
    change (0 * 10 + 7) with 7.
    rewrite (digits_uint_pos d rest Hrest). f_equal. lia.
  - cbn [NilEmpty.string_of_uint append digits String.length Pos.of_uint].
    change (digitValue 10 "8") with (Some 8). cbv iota beta.
    change (0 * 10 + 8) with 8.
    rewrite (digits_uint_pos d rest Hrest). f_equal. lia.
  - cbn [NilEmpty.string_of_uint append digits String.length Pos.of_uint].
    change (digitValue 10 "9") with (Some 9). cbv iota beta.
    change (0 * 10 + 9) with 9.
    rewrite (digits_uint_pos d rest Hrest). f_equal. lia.
Qed.

(** A zero before the end of the number is not a hexadecimal prefix. *)
Lemma zero_then_end (rest : string) :
  EndsNumber rest -> stripHexPrefix (String "0" rest) = (10, String "0" rest).
Proof.
  destruct rest as [|c rest]; [reflexivity|].
  intros [_ [Hx HX]].
  destruct c as [[|] [|] [|] [|] [|] [|] [|] [|]];
    try reflexivity; contradiction.
Qed.

(** A decimal numeral has no white space, sign or prefix to strip. *)
Lemma numeral_head (d : Decimal.uint) (rest : string) :
  d <> Decimal.Nil -> EndsNumber rest ->
  let s := NilEmpty.string_of_uint d ++ rest in
  trimStart s = s /\ stripSign s = (1, s) /\ stripHexPrefix s = (10, s).
Proof.
  intros Hd Hrest.
  destruct d as [|d|d|d|d|d|d|d|d|d|d]; [contradiction | ..];
    cbv zeta; cbn [NilEmpty.string_of_uint append];
    try (repeat split; reflexivity).
  split; [reflexivity|]. split; [reflexivity|].
  destruct d; cbn [NilEmpty.string_of_uint append]; try reflexivity.
  now apply zero_then_end.
Qed.

Lemma numeral_length (d : Decimal.uint) :
  d <> Decimal.Nil ->
  exists n, String.length (NilEmpty.string_of_uint d) = S n.
Proof.
  destruct d; [contradiction | ..]; intros _; simpl; eexists; reflexivity.
Qed.

Lemma parseInt_numeral (d : Decimal.uint) (rest : string) :
  d <> Decimal.Nil -> EndsNumber rest ->
  parseInt (NilEmpty.string_of_uint d ++ rest)
  = ofInteger (Z.of_N (Pos.of_uint d)).
Proof.
  intros Hd Hrest.
  destruct (numeral_head d rest Hd Hrest) as [Htrim [Hsign Hhex]].
  destruct (numeral_length d Hd) as [n Hlen].
  unfold parseInt.
  rewrite Htrim, Hsign, Hhex, (digits_uint_zero d rest Hrest), Hlen.
  change (0 + S n)%nat with (S n). cbv iota beta.
  now rewrite Z.mul_1_l.
Qed.

Lemma parseInt_minus_numeral (d : Decimal.uint) (rest : string) :
  d <> Decimal.Nil -> EndsNumber rest ->
  parseInt (String "-" (NilEmpty.string_of_uint d ++ rest))
  = ofInteger (- Z.of_N (Pos.of_uint d)).
Proof.
  intros Hd Hrest.
  destruct (numeral_head d rest Hd Hrest) as [_ [_ Hhex]].
  destruct (numeral_length d Hd) as [n Hlen].
  unfold parseInt.
  change (trimStart (String "-" ?s)) with (String "-" s).
  cbn [stripSign].
  rewrite Hhex, (digits_uint_zero d rest Hrest), Hlen.
  change (0 + S n)%nat with (S n). cbv iota beta.
  f_equal; lia.
Qed.

(** The decimal text of a whole number reads as the Number value of
    that number, also when something that cannot continue the number
    follows. *)
Lemma parseInt_decimal (n : Z) (rest : string) :
  EndsNumber rest -> parseInt (toString n ++ rest) = ofInteger n.
Proof.
  intros Hrest. unfold toString. destruct n as [|p|p].
  - apply (parseInt_numeral (Decimal.D0 Decimal.Nil) rest);
      [discriminate | assumption].
  - pose proof (DecimalPos.Unsigned.to_uint_nonnil p) as Hnil.
    change (Z.to_int (Z.pos p)) with (Decimal.Pos (Pos.to_uint p)).
    unfold NilZero.string_of_int, NilZero.string_of_uint.
    destruct (Pos.to_uint p) eqn:Hp; try contradiction; rewrite <- Hp;
      (rewrite parseInt_numeral by (assumption || congruence));
      now rewrite DecimalPos.Unsigned.of_to.
  - pose proof (DecimalPos.Unsigned.to_uint_nonnil p) as Hnil.
    change (Z.to_int (Z.neg p)) with (Decimal.Neg (Pos.to_uint p)).
    unfold NilZero.string_of_int, NilZero.string_of_uint.
    destruct (Pos.to_uint p) eqn:Hp; try contradiction; rewrite <- Hp;
      cbn [append];
      (rewrite parseInt_minus_numeral by (assumption || congruence));
      now rewrite DecimalPos.Unsigned.of_to.
Qed.

(** Whole numbers of magnitude below 2^53 are doubles themselves. *)
Lemma ofInteger_safe (n : Z) :
  Z.abs n <= 9007199254740991 -> ofInteger n = Num n.
Proof.
  intros Hsafe. unfold ofInteger, roundToDouble.
  assert (Hlt : (Z.abs n <? 2 ^ 53) = true)
    by (apply Z.ltb_lt; change (2 ^ 53) with 9007199254740992; lia).
  rewrite Hlt.
  assert (Hfin : (2 ^ 1024 <=? Z.abs n) = false).
  { apply Z.leb_gt. apply Z.le_lt_trans with 9007199254740991;
      [assumption | reflexivity]. }
  rewrite Hfin. f_equal. lia.
Qed.

(** The decimal text of a safe whole number reads back as that
    number. *)
Lemma parseInt_toString (n : Z) (rest : string) :
  Z.abs n <= 9007199254740991 -> EndsNumber rest ->
  parseInt (toString n ++ rest) = Num n.
Proof.
  intros Hsafe Hrest.
  now rewrite parseInt_decimal, ofInteger_safe.
Qed.

(** Different whole numbers have different decimal texts. *)
Lemma toString_inj (a b : Z) : toString a = toString b -> a = b.
Proof.
  unfold toString. intros H.
  assert (Hnil : forall n, Z.to_int n <> Decimal.Pos Decimal.Nil /\
                           Z.to_int n <> Decimal.Neg Decimal.Nil).
  { intros [|p|p]; split; try discriminate;
      intros Heq; injection Heq as Heq;
      now apply (DecimalPos.Unsigned.to_uint_nonnil p). }
  apply DecimalZ.to_int_inj.
  destruct (Hnil a) as [Ha1 Ha2]. destruct (Hnil b) as [Hb1 Hb2].
  pose proof (NilZero.isi (Z.to_int a) Ha1 Ha2) as Ia.
  pose proof (NilZero.isi (Z.to_int b) Hb1 Hb2) as Ib.
  rewrite H in Ia. congruence.
Qed.

End ParseIntFacts.

(** Typing the decimal text of a whole number of magnitude below 2^53
    into the time-limit input stores that number, also when a fraction
    or other text that cannot continue the number follows it; the other
    details stay. *)
Theorem typed_number_is_stored :
  forall (n : Z) (rest : string) (st : CreateLiveQuiz.State),
    Z.abs n <= 9007199254740991 ->
    Invariants.EndsNumber rest ->
    let d := CreateLiveQuiz.quizDetails st in
    let d' := CreateLiveQuiz.quizDetails
                (CreateLiveQuiz.handleDetailsChange "timeLimit"
                   (JS.toString n ++ rest) st) in
    TestingQuizzes.timeLimit d' = JS.Num n /\
    TestingQuizzes.id d' = TestingQuizzes.id d /\
    TestingQuizzes.title d' = TestingQuizzes.title d /\
    TestingQuizzes.grade d' = TestingQuizzes.grade d /\
    TestingQuizzes.targetAudience d' = TestingQuizzes.targetAudience d.
Proof.
  intros n rest st Hsafe Hrest. cbv zeta.
  unfold CreateLiveQuiz.handleDetailsChange. simpl.
  split; [|repeat split].
  now apply ParseIntFacts.parseInt_toString.
Qed.

Lemma typed_number_is_stored_witness :
  TestingQuizzes.timeLimit
    (CreateLiveQuiz.quizDetails
       (CreateLiveQuiz.handleDetailsChange "timeLimit" "12.7"
          Samples.algebraDraft)) = JS.Num 12.
Proof.
  apply (typed_number_is_stored 12 ".7" Samples.algebraDraft).
  - simpl. lia.
  - repeat split; discriminate.
Defined.

(* ================================================================== *)
(** * Further properties of submission                                 *)
(* ================================================================== *)

Module SubmitFacts.
Import JS TestingQuizzes AuthContext CreateLiveQuiz Spec Shorthand.

(** What passing every check says about the draft, and conversely. *)
Lemma to_await_accepts (a : Auth) (now : Z) (st : State) (user : User) :
  authLoading a = false -> currentUser a = Some user ->
  ~ DetailsIncomplete (quizDetails st) -> quizQuestions st <> [] ->
  handleSubmit_to_await a now st
  = (setIsSubmitting true (cleared st), Some (issued user now st)).
Proof.
  intros Hl Hu Hd Hq.
  destruct (SubmissionFacts.handleSubmit_to_await_cases a now st)
    as [[[H|H] _] | [[_ [H _]] | [[_ [_ [H _]]]
       | [user' [_ [Hu' [_ [_ ->]]]]]]]]; try contradiction; congruence.
Qed.

Lemma to_await_accepted (a : Auth) (now : Z) (st : State) (c : SaveCall) :
  snd (handleSubmit_to_await a now st) = Some c ->
  exists user,
    authLoading a = false /\ currentUser a = Some user /\
    ~ DetailsIncomplete (quizDetails st) /\ quizQuestions st <> [] /\
    c = issued user now st.
Proof.
  destruct (SubmissionFacts.handleSubmit_to_await_cases a now st)
    as [[_ ->] | [[_ [_ ->]] | [[_ [_ [_ ->]]]
       | [user [Hl [Hu [Hd [Hq ->]]]]]]]]; simpl; try discriminate.
  intros Hc. injection Hc as <-. exists user. repeat split; assumption.
Qed.

Lemma handleSubmit_accepted
    (save : SaveCall -> liveQuizServices.SaveOutcome)
    (a : Auth) (now : Z) (st : State) (c : SaveCall) :
  snd (handleSubmit save a now st) = [c] ->
  snd (handleSubmit_to_await a now st) = Some c.
Proof.
  unfold handleSubmit.
  destruct (handleSubmit_to_await a now st) as [st' [c'|]]; simpl;
    [now intros [= ->] | discriminate].
Qed.

Lemma not_incomplete (d : QuizDetails) :
  ~ DetailsIncomplete d <->
  title d <> "" /\ grade d <> "" /\ ~ NonPositive (timeLimit d).
Proof.
  unfold DetailsIncomplete. tauto.
Qed.

End SubmitFacts.

(** C6: when every precondition holds, the save is called exactly once,
    with the signed-in caller's identity and a bundle whose details are
    the draft's except for the identifier, whose questions are the
    draft's, and whose type is "live".  The identifier is a non-empty
    string made from the submission time, and it is fresh with respect
    to that time: any other submission that goes through, of any draft
    by any user, carries the same identifier only if it was made at
    the same clock reading. *)
Theorem C6_valid_draft_saved_once :
  forall (save : CreateLiveQuiz.SaveCall -> liveQuizServices.SaveOutcome)
         (a : AuthContext.Auth) (now : Z) (st : CreateLiveQuiz.State)
         (user : AuthContext.User),
    AuthContext.authLoading a = false ->
    AuthContext.currentUser a = Some user ->
    TestingQuizzes.title (CreateLiveQuiz.quizDetails st) <> "" ->
    TestingQuizzes.grade (CreateLiveQuiz.quizDetails st) <> "" ->
    Spec.PositiveInteger
      (TestingQuizzes.timeLimit (CreateLiveQuiz.quizDetails st)) ->
    CreateLiveQuiz.quizQuestions st <> [] ->
    exists c,
      snd (CreateLiveQuiz.handleSubmit save a now st) = [c] /\
      CreateLiveQuiz.userId c = AuthContext.uid user /\
      CreateLiveQuiz.type (CreateLiveQuiz.quizData c) = "live" /\
      CreateLiveQuiz.questions (CreateLiveQuiz.quizData c)
        = CreateLiveQuiz.quizQuestions st /\
      let d := CreateLiveQuiz.details (CreateLiveQuiz.quizData c) in
      let draft := CreateLiveQuiz.quizDetails st in
      TestingQuizzes.id d = "quiz_" ++ JS.toString now /\
      TestingQuizzes.id d <> "" /\
      TestingQuizzes.title d = TestingQuizzes.title draft /\
      TestingQuizzes.grade d = TestingQuizzes.grade draft /\
      TestingQuizzes.timeLimit d = TestingQuizzes.timeLimit draft /\
      TestingQuizzes.targetAudience d = TestingQuizzes.targetAudience draft /\
      (forall (a' : AuthContext.Auth) (now' : Z)
              (st' : CreateLiveQuiz.State) (c' : CreateLiveQuiz.SaveCall),
         snd (CreateLiveQuiz.handleSubmit_to_await a' now' st') = Some c' ->
         (TestingQuizzes.id
            (CreateLiveQuiz.details (CreateLiveQuiz.quizData c'))
          = TestingQuizzes.id d <-> now' = now)).
Proof.
  intros save a now st user Hl Hu Ht Hg Hpos Hq.
  exists (Shorthand.issued user now st).
  unfold CreateLiveQuiz.handleSubmit.
  destruct (SubmissionFacts.handleSubmit_to_await_cases a now st)
    as [[Ha _] | [[_ [Hd _]] | [[_ [_ [Hq' _]]]
       | [user' [_ [Hu' [_ [_ ->]]]]]]]].
  - destruct Ha; congruence.
  - destruct Hd as [H | [H | H]]; try contradiction.
    now apply SubmissionFacts.PositiveInteger_not_NonPositive in Hpos.
  - contradiction.
  - assert (user' = user) as -> by congruence.
    simpl.
    split; [reflexivity|]. split; [reflexivity|]. split; [reflexivity|].
    split; [reflexivity|]. split; [reflexivity|]. split; [discriminate|].
    split; [reflexivity|]. split; [reflexivity|]. split; [reflexivity|].
    split; [reflexivity|].
    intros a' now' st' c' Hc'.
    destruct (SubmitFacts.to_await_accepted a' now' st' c' Hc')
      as [u' [_ [_ [_ [_ ->]]]]].
    simpl. split.
    + intros Heq. injection Heq as Heq.
      now apply ParseIntFacts.toString_inj.
    + now intros ->.
Qed.

Lemma C6_valid_draft_saved_once_witness :
  exists c,
    snd (CreateLiveQuiz.handleSubmit (fun _ => JS.Fulfilled "doc-1")
           Samples.teacher 1700000000000 Samples.algebraDraft) = [c] /\
    CreateLiveQuiz.userId c = "teacher-1" /\
    CreateLiveQuiz.type (CreateLiveQuiz.quizData c) = "live" /\
    CreateLiveQuiz.questions (CreateLiveQuiz.quizData c) = [Samples.q1] /\
    TestingQuizzes.id (CreateLiveQuiz.details (CreateLiveQuiz.quizData c))
      = "quiz_1700000000000" /\
    TestingQuizzes.id (CreateLiveQuiz.details (CreateLiveQuiz.quizData c))
      <> TestingQuizzes.id
           (CreateLiveQuiz.details
              (CreateLiveQuiz.quizData
                 (Shorthand.issued {| AuthContext.uid := "teacher-1" |}
                    1700000000001 Samples.algebraDraft))).
Proof.
  destruct
    (C6_valid_draft_saved_once (fun _ => JS.Fulfilled "doc-1")
       Samples.teacher 1700000000000 Samples.algebraDraft
       {| AuthContext.uid := "teacher-1" |})
    as [c [Hc [Hu [Ht [Hq [Hid [_ [_ [_ [_ [_ Hfresh]]]]]]]]]]];
    try reflexivity; try discriminate.
  - exists 10. split; [reflexivity | lia].
  - exists c. repeat split; try assumption.
    intros Heq. symmetry in Heq.
    apply (Hfresh Samples.teacher 1700000000001 Samples.algebraDraft
             (Shorthand.issued {| AuthContext.uid := "teacher-1" |}
                1700000000001 Samples.algebraDraft) eq_refl) in Heq.
    discriminate Heq.
Defined.

(** After a save that failed, submitting again as it stands issues the
    same bundle for the same user, with a new identifier made from the
    new time: nothing has to be entered again. *)
Theorem retry_after_failure_resends :
  forall (save1 save2 : CreateLiveQuiz.SaveCall -> liveQuizServices.SaveOutcome)
         (a : AuthContext.Auth) (now1 now2 : Z)
         (st : CreateLiveQuiz.State)
         (c1 : CreateLiveQuiz.SaveCall) (reason : JS.Error),
    snd (CreateLiveQuiz.handleSubmit save1 a now1 st) = [c1] ->
    save1 c1 = JS.Rejected reason ->
    let st1 := fst (CreateLiveQuiz.handleSubmit save1 a now1 st) in
    exists c2,
      snd (CreateLiveQuiz.handleSubmit save2 a now2 st1) = [c2] /\
      CreateLiveQuiz.userId c2 = CreateLiveQuiz.userId c1 /\
      CreateLiveQuiz.questions (CreateLiveQuiz.quizData c2)
        = CreateLiveQuiz.questions (CreateLiveQuiz.quizData c1) /\
      CreateLiveQuiz.type (CreateLiveQuiz.quizData c2)
        = CreateLiveQuiz.type (CreateLiveQuiz.quizData c1) /\
      CreateLiveQuiz.details (CreateLiveQuiz.quizData c2)
        = CreateLiveQuiz.withId
            (CreateLiveQuiz.details (CreateLiveQuiz.quizData c1))
            ("quiz_" ++ JS.toString now2).
Proof.
  intros save1 save2 a now1 now2 st c1 reason Hc Hsave.
  destruct (SubmissionFacts.handleSubmit_called save1 a now1 st c1 Hc)
    as [Hrun _].
  apply SubmitFacts.handleSubmit_accepted in Hc.
  destruct (SubmitFacts.to_await_accepted a now1 st c1 Hc)
    as [user [Hl [Hu [Hd [Hq ->]]]]].
  cbv zeta. rewrite Hrun, Hsave.
  exists (Shorthand.issued user now2 st).
  unfold CreateLiveQuiz.handleSubmit.
  rewrite (SubmitFacts.to_await_accepts a now2 _ user Hl Hu); try assumption.
  repeat split.
Qed.

Lemma retry_after_failure_resends_witness :
  exists c2,
    snd (CreateLiveQuiz.handleSubmit (fun _ => JS.Fulfilled "doc-1")
           Samples.teacher 1800
           (fst (CreateLiveQuiz.handleSubmit
                   (fun _ => JS.Rejected {| JS.message := "unavailable" |})
                   Samples.teacher 1700 Samples.algebraDraft))) = [c2] /\
    CreateLiveQuiz.questions (CreateLiveQuiz.quizData c2) = [Samples.q1] /\
    TestingQuizzes.id (CreateLiveQuiz.details (CreateLiveQuiz.quizData c2))
      = "quiz_1800".
Proof.
  destruct
    (retry_after_failure_resends
       (fun _ => JS.Rejected {| JS.message := "unavailable" |})
       (fun _ => JS.Fulfilled "doc-1")
       Samples.teacher 1700 1800 Samples.algebraDraft
       (Shorthand.issued {| AuthContext.uid := "teacher-1" |} 1700
          Samples.algebraDraft)
       {| JS.message := "unavailable" |} eq_refl eq_refl)
    as [c2 [Hc2 [_ [Hq [_ Hd]]]]].
  exists c2. split; [exact Hc2|]. split; [exact Hq|].
  now rewrite Hd.
Defined.

(** After a save that succeeded the form is blank again: submitting
    once more saves nothing, takes the confirmation away and asks for
    the details. *)
Theorem resubmit_after_success_saves_nothing :
  forall (save1 save2 : CreateLiveQuiz.SaveCall -> liveQuizServices.SaveOutcome)
         (a : AuthContext.Auth) (now1 now2 : Z)
         (st : CreateLiveQuiz.State)
         (c1 : CreateLiveQuiz.SaveCall) (quizId : string),
    snd (CreateLiveQuiz.handleSubmit save1 a now1 st) = [c1] ->
    save1 c1 = JS.Fulfilled quizId ->
    let st1 := fst (CreateLiveQuiz.handleSubmit save1 a now1 st) in
    let again := CreateLiveQuiz.handleSubmit save2 a now2 st1 in
    snd again = [] /\
    CreateLiveQuiz.successMessage (fst again) = None /\
    CreateLiveQuiz.formError (fst again) = Some CreateLiveQuiz.msgDetails.
Proof.
  intros save1 save2 a now1 now2 st c1 quizId Hc Hsave.
  destruct (SubmissionFacts.handleSubmit_called save1 a now1 st c1 Hc)
    as [Hrun _].
  apply SubmitFacts.handleSubmit_accepted in Hc.
  destruct (SubmitFacts.to_await_accepted a now1 st c1 Hc)
    as [user [Hl [Hu _]]].
  cbv zeta. rewrite Hrun, Hsave.
  unfold CreateLiveQuiz.handleSubmit, CreateLiveQuiz.handleSubmit_to_await.
  rewrite Hl, Hu. repeat split.
Qed.

Lemma resubmit_after_success_saves_nothing_witness :
  let st1 :=
    fst (CreateLiveQuiz.handleSubmit (fun _ => JS.Fulfilled "doc-1")
           Samples.teacher 1700 Samples.algebraDraft) in
  let again :=
    CreateLiveQuiz.handleSubmit (fun _ => JS.Fulfilled "doc-2")
      Samples.teacher 1800 st1 in
  snd again = [] /\
  CreateLiveQuiz.successMessage (fst again) = None /\
  CreateLiveQuiz.formError (fst again) = Some CreateLiveQuiz.msgDetails.
Proof.
  exact
    (resubmit_after_success_saves_nothing
       (fun _ => JS.Fulfilled "doc-1") (fun _ => JS.Fulfilled "doc-2")
       Samples.teacher 1700 1800 Samples.algebraDraft
       (Shorthand.issued {| AuthContext.uid := "teacher-1" |} 1700
          Samples.algebraDraft)
       "doc-1" eq_refl eq_refl).
Defined.

(** Two submissions that went through carry the same identifier exactly
    when they were made at the same clock reading, whatever the drafts
    and whoever the users. *)
Theorem quiz_ids_equal_iff_same_time :
  forall (a1 a2 : AuthContext.Auth) (now1 now2 : Z)
         (st1 st2 : CreateLiveQuiz.State)
         (c1 c2 : CreateLiveQuiz.SaveCall),
    snd (CreateLiveQuiz.handleSubmit_to_await a1 now1 st1) = Some c1 ->
    snd (CreateLiveQuiz.handleSubmit_to_await a2 now2 st2) = Some c2 ->
    (TestingQuizzes.id (CreateLiveQuiz.details (CreateLiveQuiz.quizData c1))
     = TestingQuizzes.id (CreateLiveQuiz.details (CreateLiveQuiz.quizData c2))
     <-> now1 = now2).
Proof.
  intros a1 a2 now1 now2 st1 st2 c1 c2 H1 H2.
  destruct (SubmitFacts.to_await_accepted a1 now1 st1 c1 H1)
    as [u1 [_ [_ [_ [_ ->]]]]].
  destruct (SubmitFacts.to_await_accepted a2 now2 st2 c2 H2)
    as [u2 [_ [_ [_ [_ ->]]]]].
  simpl. split.
  - intros Heq. injection Heq as Heq.
    now apply ParseIntFacts.toString_inj.
  - now intros ->.
Qed.

Lemma quiz_ids_equal_iff_same_time_witness :
  TestingQuizzes.id
    (CreateLiveQuiz.details
       (CreateLiveQuiz.quizData
          (Shorthand.issued {| AuthContext.uid := "teacher-1" |} 1700
             Samples.algebraDraft)))
  = TestingQuizzes.id
      (CreateLiveQuiz.details
         (CreateLiveQuiz.quizData
            (Shorthand.issued {| AuthContext.uid := "teacher-1" |} 1700
               Samples.clearedTimeLimitDraft)))
  <-> 1700 = 1700.
Proof.
  exact
    (quiz_ids_equal_iff_same_time Samples.teacher Samples.teacher 1700 1700
       Samples.algebraDraft Samples.clearedTimeLimitDraft
       (Shorthand.issued {| AuthContext.uid := "teacher-1" |} 1700
          Samples.algebraDraft)
       (Shorthand.issued {| AuthContext.uid := "teacher-1" |} 1700
          Samples.clearedTimeLimitDraft)
       eq_refl eq_refl).
Defined.

(* ================================================================== *)
(** * The rendered form against its handlers                           *)
(* ================================================================== *)

Module ViewFacts.
Import JS TestingQuizzes AuthContext CreateLiveQuiz Spec FormView.

(** The button's test, one condition at a time. *)
Lemma submitDisabled_false (a : Auth) (st : State) :
  submitDisabled a st = false <->
  isSubmitting st = false /\ authLoading a = false /\
  (exists user, currentUser a = Some user) /\
  quizQuestions st <> [] /\ title (quizDetails st) <> "" /\
  ~ NonPositive (timeLimit (quizDetails st)).
Proof.
  unfold submitDisabled.
  rewrite !orb_false_iff.
  rewrite <- SubmissionFacts.le_zero_true.
  rewrite <- (SubmissionFacts.isEmpty_true (title (quizDetails st))).
  rewrite <- (SubmissionFacts.no_questions_test (quizQuestions st)).
  destruct (currentUser a) as [user|].
  - split.
    + intros [[[[[H1 H2] _] H4] H5] H6].
      repeat split; try assumption; try congruence. now exists user.
    + intros [H1 [H2 [_ [H4 [H5 H6]]]]].
      repeat split; try assumption; try reflexivity;
        now apply not_true_is_false.
  - split.
    + intros [[[[[_ _] H3] _] _] _]. discriminate H3.
    + intros [_ [_ [[user Hu] _]]]. discriminate Hu.
Qed.

Lemma buttonGreyed_false (a : Auth) (st : State) :
  buttonGreyed a st = false <->
  isSubmitting st = false /\
  (exists user, currentUser a = Some user) /\
  quizQuestions st <> [] /\ title (quizDetails st) <> "" /\
  ~ NonPositive (timeLimit (quizDetails st)).
Proof.
  unfold buttonGreyed.
  rewrite !orb_false_iff.
  rewrite <- SubmissionFacts.le_zero_true.
  rewrite <- (SubmissionFacts.isEmpty_true (title (quizDetails st))).
  rewrite <- (SubmissionFacts.no_questions_test (quizQuestions st)).
  destruct (currentUser a) as [user|].
  - split.
    + intros [[[[H1 _] H4] H5] H6].
      repeat split; try assumption; try congruence. now exists user.
    + intros [H1 [_ [H4 [H5 H6]]]].
      repeat split; try assumption; try reflexivity;
        now apply not_true_is_false.
  - split.
    + intros [[[[_ H3] _] _] _]. discriminate H3.
    + intros [_ [[user Hu] _]]. discriminate Hu.
Qed.

End ViewFacts.

(** While no submission is running, the handler lets a submission
    through exactly when the button is enabled and a grade is chosen:
    the button does not look at the grade, the handler does. *)
Theorem handler_accepts_iff_enabled_and_graded :
  forall (a : AuthContext.Auth) (now : Z) (st : CreateLiveQuiz.State),
    CreateLiveQuiz.isSubmitting st = false ->
    ((exists c, snd (CreateLiveQuiz.handleSubmit_to_await a now st) = Some c)
     <-> CreateLiveQuiz.submitDisabled a st = false /\
         TestingQuizzes.grade (CreateLiveQuiz.quizDetails st) <> "").
Proof.
  intros a now st Hidle. rewrite ViewFacts.submitDisabled_false. split.
  - intros [c Hc].
    destruct (SubmitFacts.to_await_accepted a now st c Hc)
      as [user [Hl [Hu [Hd [Hq _]]]]].
    apply SubmitFacts.not_incomplete in Hd. destruct Hd as [Ht [Hg Hn]].
    repeat split; try assumption. now exists user.
  - intros [[_ [Hl [[user Hu] [Hq [Ht Hn]]]]] Hg].
    exists (Shorthand.issued user now st).
    rewrite (SubmitFacts.to_await_accepts a now st user); try assumption;
      [reflexivity|].
    apply SubmitFacts.not_incomplete. repeat split; assumption.
Qed.

Lemma handler_accepts_iff_enabled_and_graded_witness :
  (exists c,
     snd (CreateLiveQuiz.handleSubmit_to_await Samples.teacher 1700
            Samples.algebraDraft) = Some c)
  <-> CreateLiveQuiz.submitDisabled Samples.teacher Samples.algebraDraft
        = false /\
      TestingQuizzes.grade
        (CreateLiveQuiz.quizDetails Samples.algebraDraft) <> "".
Proof.
  exact (handler_accepts_iff_enabled_and_graded Samples.teacher 1700
           Samples.algebraDraft eq_refl).
Defined.

(** With no grade chosen the button can be pressed, and pressing it
    saves nothing and asks for the details. *)
Theorem enabled_without_grade_is_rejected :
  forall (a : AuthContext.Auth) (now : Z) (st : CreateLiveQuiz.State),
    CreateLiveQuiz.submitDisabled a st = false ->
    TestingQuizzes.grade (CreateLiveQuiz.quizDetails st) = "" ->
    snd (CreateLiveQuiz.handleSubmit_to_await a now st) = None /\
    CreateLiveQuiz.formError
      (fst (CreateLiveQuiz.handleSubmit_to_await a now st))
      = Some CreateLiveQuiz.msgDetails.
Proof.
  intros a now st Hen Hg.
  apply ViewFacts.submitDisabled_false in Hen.
  destruct Hen as [_ [Hl [[user Hu] _]]].
  destruct (SubmissionFacts.handleSubmit_to_await_cases a now st)
    as [[[H|H] _] | [[_ [_ ->]] | [[_ [Hd _]] | [u [_ [_ [Hd _]]]]]]];
    try congruence.
  - split; reflexivity.
  - exfalso. apply Hd. right. now left.
  - exfalso. apply Hd. right. now left.
Qed.

Lemma enabled_without_grade_is_rejected_witness :
  let st := CreateLiveQuiz.handleDetailsChange "grade" ""
              Samples.algebraDraft in
  snd (CreateLiveQuiz.handleSubmit_to_await Samples.teacher 1700 st) = None /\
  CreateLiveQuiz.formError
    (fst (CreateLiveQuiz.handleSubmit_to_await Samples.teacher 1700 st))
    = Some CreateLiveQuiz.msgDetails.
Proof.
  exact (enabled_without_grade_is_rejected Samples.teacher 1700
           (CreateLiveQuiz.handleDetailsChange "grade" ""
              Samples.algebraDraft) eq_refl eq_refl).
Defined.

(** One of the two auth banners is on the page exactly when submitting
    would be refused for auth, and the two are never there together. *)
Theorem auth_banner_iff_auth_refusal :
  forall (a : AuthContext.Auth) (now : Z) (st : CreateLiveQuiz.State),
    (FormView.showsAuthLoading a || FormView.showsLoginRequired a = true
     <-> CreateLiveQuiz.formError
           (fst (CreateLiveQuiz.handleSubmit_to_await a now st))
         = Some CreateLiveQuiz.msgAuth) /\
    FormView.showsAuthLoading a && FormView.showsLoginRequired a = false.
Proof.
  intros a now st.
  unfold FormView.showsAuthLoading, FormView.showsLoginRequired.
  destruct (SubmissionFacts.handleSubmit_to_await_cases a now st)
    as [[Ha ->] | [[Ha [_ ->]] | [[Ha [_ [_ ->]]]
       | [user [Hl [Hu [_ [_ ->]]]]]]]]; simpl.
  - destruct Ha as [-> | ->]; simpl.
    + repeat split. apply andb_false_r.
    + destruct (AuthContext.authLoading a); repeat split.
  - unfold Spec.AuthUnresolved in Ha.
    destruct (AuthContext.authLoading a), (AuthContext.currentUser a);
      simpl; try tauto; (split; [split; discriminate | reflexivity]).
  - unfold Spec.AuthUnresolved in Ha.
    destruct (AuthContext.authLoading a), (AuthContext.currentUser a);
      simpl; try tauto; (split; [split; discriminate | reflexivity]).
  - rewrite Hl, Hu. simpl. split; [split; discriminate | reflexivity].
Qed.

(** A button drawn grey is disabled.  A button that is disabled but not
    drawn grey occurs in one situation only: auth is still loading
    while a user is known and the draft is otherwise ready. *)
Theorem greyed_button_is_disabled :
  forall (a : AuthContext.Auth) (st : CreateLiveQuiz.State),
    (FormView.buttonGreyed a st = true ->
       CreateLiveQuiz.submitDisabled a st = true) /\
    (CreateLiveQuiz.submitDisabled a st = true /\
     FormView.buttonGreyed a st = false
     <-> AuthContext.authLoading a = true /\
         CreateLiveQuiz.isSubmitting st = false /\
         (exists user, AuthContext.currentUser a = Some user) /\
         CreateLiveQuiz.quizQuestions st <> [] /\
         TestingQuizzes.title (CreateLiveQuiz.quizDetails st) <> "" /\
         ~ Spec.NonPositive
             (TestingQuizzes.timeLimit (CreateLiveQuiz.quizDetails st))).
Proof.
  intros a st. split.
  - intros Hgrey.
    destruct (CreateLiveQuiz.submitDisabled a st) eqn:Hdis; [reflexivity|].
    apply ViewFacts.submitDisabled_false in Hdis.
    assert (FormView.buttonGreyed a st = false)
      by (apply ViewFacts.buttonGreyed_false; tauto).
    congruence.
  - rewrite ViewFacts.buttonGreyed_false. split.
    + intros [Hdis [Hs [Hu [Hq [Ht Hn]]]]].
      repeat split; try assumption.
      destruct (AuthContext.authLoading a) eqn:Hl; [reflexivity|].
      assert (CreateLiveQuiz.submitDisabled a st = false)
        by (apply ViewFacts.submitDisabled_false; tauto).
      congruence.
    + intros [Hl [Hs [Hu [Hq [Ht Hn]]]]].
      repeat split; try assumption.
      destruct (CreateLiveQuiz.submitDisabled a st) eqn:Hdis; [reflexivity|].
      apply ViewFacts.submitDisabled_false in Hdis. destruct Hdis as [_ [H _]].
      congruence.
Qed.

(** The preview appears exactly when there are questions; it shows the
    first five at most, in order, and the count it adds for the rest
    makes up the total. *)
Theorem preview_counts_add_up :
  forall st : CreateLiveQuiz.State,
    let qs := CreateLiveQuiz.quizQuestions st in
    match FormView.preview st with
    | None => qs = []
    | Some p =>
        qs <> [] /\
        FormView.parsedCount p = List.length qs /\
        FormView.shown p = firstn 5 qs /\
        (FormView.shown p ++ skipn 5 qs)%list = qs /\
        (List.length (FormView.shown p)
         + match FormView.more p with Some m => m | None => 0 end
         = List.length qs)%nat /\
        (FormView.more p = None <-> (List.length qs <= 5)%nat)
    end.
Proof.
  intros st. cbv zeta. unfold FormView.preview, FormView.slice.
  destruct (CreateLiveQuiz.quizQuestions st) as [|q qs] eqn:Hqs.
  - reflexivity.
  - change (0 <? List.length (q :: qs))%nat with true. cbv iota.
    cbn [FormView.parsedCount FormView.shown FormView.more skipn].
    change (5 - 0)%nat with 5%nat.
    split; [discriminate|]. split; [reflexivity|]. split; [reflexivity|].
    split; [apply firstn_skipn|].
    rewrite length_firstn.
    destruct (5 <? List.length (q :: qs))%nat eqn:Hmore.
    + apply Nat.ltb_lt in Hmore. split; [lia|]. split; [discriminate | lia].
    + apply Nat.ltb_ge in Hmore. split; [lia|]. split; [trivial | reflexivity].
Qed.

(* ================================================================== *)
(** * What holds in every state the form can reach                     *)
(* ================================================================== *)

Module ReachFacts.
Import JS TestingQuizzes AuthContext CreateLiveQuiz Spec Shorthand Invariants.

(** A property kept by every step on events of a given kind is kept by
    every run made of such events. *)
Lemma run_preserves (P : Form -> Prop) (Q : Event -> Prop) :
  (forall f e f', Q e -> P f -> step f e = Some f' -> P f') ->
  forall events f f',
    Forall Q events -> P f -> run f events = Some f' -> P f'.
Proof.
  intros Hstep. induction events as [|e rest IH]; simpl; intros f f' HQ HP Hrun.
  - now injection Hrun as <-.
  - inversion HQ as [|? ? He Hrest]; subst.
    destruct (step f e) as [f1|] eqn:Hs; [|discriminate].
    eapply IH; [exact Hrest | | exact Hrun].
    eapply Hstep; eassumption.
Qed.

Lemma Forall_any {A} (l : list A) : Forall (fun _ => True) l.
Proof.
  induction l; constructor; trivial.
Qed.

Lemma removeAt_incl {A} (n : nat) (l : list A) (x : A) :
  In x (removeAt n l) -> In x l.
Proof.
  unfold removeAt. intros Hin. apply in_app_or in Hin.
  rewrite <- (firstn_skipn n l). apply in_or_app.
  destruct Hin as [H|H]; [now left | right].
  clear -H. revert l H. induction n as [|n IH]; intros [|y l] H; simpl in *;
    try contradiction.
  - now right.
  - now apply IH.
Qed.

Lemma removeAt_Forall {A} (P : A -> Prop) (n : nat) (l : list A) :
  Forall P l -> Forall P (removeAt n l).
Proof.
  rewrite !Forall_forall. intros H x Hx. eapply H, removeAt_incl, Hx.
Qed.

(** The questions a load leaves are question records. *)
Lemma reader_onload_questions (r : JSON_parse_outcome) (st : State) :
  Forall QuestionRecord (quizQuestions (reader_onload r st)).
Proof.
  destruct (IngestionFacts.reader_onload_cases r st)
    as [[items [_ [Hall ->]]] | [-> | ->]]; simpl;
    [assumption | constructor | constructor].
Qed.

Lemma from_await_questions (d : QuizDetails)
    (outcome : liveQuizServices.SaveOutcome) (st : State) :
  Forall QuestionRecord (quizQuestions st) ->
  Forall QuestionRecord (quizQuestions (handleSubmit_from_await d outcome st)).
Proof.
  destruct outcome; simpl; [constructor | trivial].
Qed.

(** The call a draft of question records gives rise to is well formed. *)
Lemma issued_WellFormed (user : User) (now : Z) (st : State) :
  ~ DetailsIncomplete (quizDetails st) -> quizQuestions st <> [] ->
  Forall QuestionRecord (quizQuestions st) ->
  WellFormedCall (issued user now st).
Proof.
  intros Hd Hq Hall. apply SubmitFacts.not_incomplete in Hd.
  destruct Hd as [Ht [Hg Hn]].
  unfold WellFormedCall. simpl.
  repeat split; try assumption. now exists now.
Qed.

Lemma step_Sound (f f' : Form) (e : Event) :
  Sound f -> step f e = Some f' -> Sound f'.
Proof.
  intros [Hqs Hcalls] Hstep.
  destruct e as [a | name value | file | n | now | n outcome];
    simpl in Hstep.
  - injection Hstep as <-. now split.
  - injection Hstep as <-. now split.
  - destruct file as [r|]; simpl in Hstep; injection Hstep as <-;
      split; simpl; try assumption. constructor.
  - destruct (nth_error (reading f) n) as [r|]; [|discriminate].
    injection Hstep as <-. split; simpl; [|assumption].
    apply reader_onload_questions.
  - destruct (submitDisabled (auth f) (state f)); [discriminate|].
    destruct (SubmissionFacts.handleSubmit_to_await_cases (auth f) now (state f))
      as [[_ Heq] | [[_ [_ Heq]] | [[_ [_ [_ Heq]]]
         | [user [_ [_ [Hd [Hq Heq]]]]]]]];
      rewrite Heq in Hstep; injection Hstep as <-; split; simpl;
      try assumption.
    apply Forall_app. split; [assumption|].
    constructor; [|constructor]. simpl. split; [|reflexivity].
    now apply issued_WellFormed.
  - destruct (nth_error (saving f) n) as [p|]; [|discriminate].
    injection Hstep as <-. split; simpl.
    + now apply from_await_questions.
    + now apply removeAt_Forall.
Qed.

(** The two messages through a step; the guard is needed to know that a
    submit finds no save out. *)
Lemma step_Messages (f f' : Form) (e : Event) :
  Guarded f /\ MessagesExclusive f -> step f e = Some f' ->
  Guarded f' /\ MessagesExclusive f'.
Proof.
  intros [Hg [Hex Hout]] Hstep.
  split; [eapply GuardFacts.step_Guarded; eassumption|].
  destruct e as [a | name value | file | n | now | n outcome];
    simpl in Hstep.
  - injection Hstep as <-. now split.
  - injection Hstep as <-. now split.
  - destruct file as [r|]; simpl in Hstep; injection Hstep as <-;
      now split.
  - destruct (nth_error (reading f) n) as [r|]; [|discriminate].
    injection Hstep as <-. unfold MessagesExclusive. simpl.
    destruct (IngestionFacts.reader_onload_cases r (state f))
      as [[items [_ [_ ->]]] | [-> | ->]]; simpl; now split.
  - destruct (submitDisabled (auth f) (state f)) eqn:Hdis; [discriminate|].
    apply GuardFacts.enabled_not_submitting in Hdis.
    assert (Hnone : saving f = [])
      by (destruct Hg as [[H _] | [p [_ H]]]; [assumption | congruence]).
    destruct (SubmissionFacts.handleSubmit_to_await_cases (auth f) now (state f))
      as [[_ Heq] | [[_ [_ Heq]] | [[_ [_ [_ Heq]]] | [user [_ [_ [_ [_ Heq]]]]]]]];
      rewrite Heq in Hstep; injection Hstep as <-;
      unfold MessagesExclusive; simpl; rewrite Hnone; simpl;
      split; try (now right); try (now left); try congruence.
    intros _. now split.
  - destruct (nth_error (saving f) n) as [p|] eqn:Hnth; [|discriminate].
    injection Hstep as <-.
    assert (Hsome : saving f <> [])
      by (intros H; rewrite H in Hnth; destruct n; discriminate Hnth).
    destruct (Hout Hsome) as [Herr Hok].
    assert (Hgone : removeAt n (saving f) = []).
    { destruct Hg as [[H _] | [q [H _]]]; [contradiction|].
      rewrite H in *. destruct n as [|n]; [reflexivity|].
      destruct n; discriminate Hnth. }
    unfold MessagesExclusive. simpl. rewrite Hgone.
    destruct outcome; simpl; split; try congruence;
      [now left | now right].
Qed.

(** An edit through one of the four inputs leaves the identifier. *)
Lemma setField_input_id (name value : string) (d : QuizDetails) :
  In name inputNames -> id (setField name value d) = id d.
Proof.
  intros [<- | [<- | [<- | [<- | []]]]]; reflexivity.
Qed.

Lemma step_draft_id (f f' : Form) (e : Event) :
  FromPage e -> id (quizDetails (state f)) = "" -> step f e = Some f' ->
  id (quizDetails (state f')) = "".
Proof.
  intros He Hid Hstep.
  destruct e as [a | name value | file | n | now | n outcome];
    simpl in Hstep.
  - now injection Hstep as <-.
  - injection Hstep as <-. simpl. now rewrite setField_input_id.
  - destruct file as [r|]; simpl in Hstep; now injection Hstep as <-.
  - destruct (nth_error (reading f) n) as [r|]; [|discriminate].
    injection Hstep as <-. simpl.
    destruct (IngestionFacts.reader_onload_cases r (state f))
      as [[items [_ [_ ->]]] | [-> | ->]]; assumption.
  - destruct (submitDisabled (auth f) (state f)); [discriminate|].
    destruct (SubmissionFacts.handleSubmit_to_await_cases (auth f) now (state f))
      as [[_ Heq] | [[_ [_ Heq]] | [[_ [_ [_ Heq]]] | [user [_ [_ [_ [_ Heq]]]]]]]];
      rewrite Heq in Hstep; now injection Hstep as <-.
  - destruct (nth_error (saving f) n) as [p|]; [|discriminate].
    injection Hstep as <-. destruct outcome; [reflexivity | assumption].
Qed.

End ReachFacts.

(** In every state the form reaches, each question of the draft has an
    [id] and a [question], and each bundle handed to the service has a
    title, a grade, a time limit that is not at most zero, at least one
    question, only such questions, the type "live" and an identifier
    made from a clock reading; apart from the identifier its details
    are the draft's at the time of submitting. *)
Theorem reachable_bundles_well_formed :
  forall (a : AuthContext.Auth) (events : list CreateLiveQuiz.Event)
         (f : CreateLiveQuiz.Form),
    CreateLiveQuiz.run (CreateLiveQuiz.mounted a) events = Some f ->
    Forall Spec.QuestionRecord
      (CreateLiveQuiz.quizQuestions (CreateLiveQuiz.state f)) /\
    Forall (fun p =>
              Invariants.WellFormedCall (CreateLiveQuiz.call p) /\
              CreateLiveQuiz.details
                (CreateLiveQuiz.quizData (CreateLiveQuiz.call p))
              = CreateLiveQuiz.withId (CreateLiveQuiz.submitted p)
                  (TestingQuizzes.id
                     (CreateLiveQuiz.details
                        (CreateLiveQuiz.quizData (CreateLiveQuiz.call p)))))
           (CreateLiveQuiz.saving f).
Proof.
  intros a events f Hrun.
  apply (ReachFacts.run_preserves Invariants.Sound (fun _ => True))
    with (events := events) (f := CreateLiveQuiz.mounted a);
    [ | apply ReachFacts.Forall_any | | exact Hrun].
  - intros f0 e f1 _. apply ReachFacts.step_Sound.
  - split; constructor.
Qed.

Lemma reachable_bundles_well_formed_witness :
  Forall Spec.QuestionRecord
    (CreateLiveQuiz.quizQuestions
       (CreateLiveQuiz.state Samples.submittedForm)) /\
  Forall (fun p =>
            Invariants.WellFormedCall (CreateLiveQuiz.call p) /\
            CreateLiveQuiz.details
              (CreateLiveQuiz.quizData (CreateLiveQuiz.call p))
            = CreateLiveQuiz.withId (CreateLiveQuiz.submitted p)
                (TestingQuizzes.id
                   (CreateLiveQuiz.details
                      (CreateLiveQuiz.quizData (CreateLiveQuiz.call p)))))
         (CreateLiveQuiz.saving Samples.submittedForm).
Proof.
  exact (reachable_bundles_well_formed Samples.teacher
           Samples.submittedEvents Samples.submittedForm eq_refl).
Defined.

(** In every state the form reaches, an error under the form and a
    confirmation are never shown together, and while a save is out
    neither is shown. *)
Theorem reachable_messages_exclusive :
  forall (a : AuthContext.Auth) (events : list CreateLiveQuiz.Event)
         (f : CreateLiveQuiz.Form),
    CreateLiveQuiz.run (CreateLiveQuiz.mounted a) events = Some f ->
    (CreateLiveQuiz.formError (CreateLiveQuiz.state f) = None
     \/ CreateLiveQuiz.successMessage (CreateLiveQuiz.state f) = None) /\
    (CreateLiveQuiz.saving f <> [] ->
       CreateLiveQuiz.formError (CreateLiveQuiz.state f) = None /\
       CreateLiveQuiz.successMessage (CreateLiveQuiz.state f) = None).
Proof.
  intros a events f Hrun.
  apply (ReachFacts.run_preserves
           (fun f => Shorthand.Guarded f /\ Invariants.MessagesExclusive f)
           (fun _ => True))
    with (events := events) (f := CreateLiveQuiz.mounted a);
    [ | apply ReachFacts.Forall_any | | exact Hrun].
  - intros f0 e f1 _. apply ReachFacts.step_Messages.
  - split; [apply GuardFacts.mounted_Guarded|].
    split; [now left | intros H; now contradiction H].
Qed.

Lemma reachable_messages_exclusive_witness :
  (CreateLiveQuiz.formError (CreateLiveQuiz.state Samples.submittedForm)
     = None
   \/ CreateLiveQuiz.successMessage
        (CreateLiveQuiz.state Samples.submittedForm) = None) /\
  (CreateLiveQuiz.saving Samples.submittedForm <> [] ->
     CreateLiveQuiz.formError (CreateLiveQuiz.state Samples.submittedForm)
       = None /\
     CreateLiveQuiz.successMessage
       (CreateLiveQuiz.state Samples.submittedForm) = None).
Proof.
  exact (reachable_messages_exclusive Samples.teacher
           Samples.submittedEvents Samples.submittedForm eq_refl).
Defined.

(** As long as details changes come from the four inputs of the page,
    the draft's identifier stays empty: an identifier exists only in
    the bundle made at submission. *)
Theorem draft_id_stays_empty :
  forall (a : AuthContext.Auth) (events : list CreateLiveQuiz.Event)
         (f : CreateLiveQuiz.Form),
    Forall Invariants.FromPage events ->
    CreateLiveQuiz.run (CreateLiveQuiz.mounted a) events = Some f ->
    TestingQuizzes.id (CreateLiveQuiz.quizDetails (CreateLiveQuiz.state f))
      = "".
Proof.
  intros a events f Hpage Hrun.
  apply (ReachFacts.run_preserves
           (fun f => TestingQuizzes.id
                       (CreateLiveQuiz.quizDetails (CreateLiveQuiz.state f))
                     = "")
           Invariants.FromPage)
    with (events := events) (f := CreateLiveQuiz.mounted a);
    [ | exact Hpage | reflexivity | exact Hrun].
  intros f0 e f1. apply ReachFacts.step_draft_id.
Qed.

Lemma draft_id_stays_empty_witness :
  TestingQuizzes.id
    (CreateLiveQuiz.quizDetails (CreateLiveQuiz.state Samples.submittedForm))
    = "".
Proof.
  apply (draft_id_stays_empty Samples.teacher Samples.submittedEvents
           Samples.submittedForm).
  - repeat constructor; simpl; tauto.
  - reflexivity.
Defined.

(* ================================================================== *)
(** * Further properties of the listing                                *)
(* ================================================================== *)

(** Whatever was fetched, ties in creation time included, the listing
    holds exactly the fetched quizzes, none dropped and none repeated,
    each created no earlier than those after it, and renders one card
    for each in that order. *)
Theorem listing_orders_any_fetch :
  forall (fetched : list liveQuizServices.LiveQuizData)
         (st : LiveTest.State),
    let st' := LiveTest.fetchQuizzes (JS.Fulfilled fetched) st in
    Permutation fetched (LiveTest.quizzes st') /\
    StronglySorted Shorthand.NotOlder (LiveTest.quizzes st') /\
    (fetched <> [] ->
       exists cards,
         LiveTest.render st' = LiveTest.Cards cards /\
         cards = map LiveTest.card (LiveTest.quizzes st') /\
         List.length cards = List.length fetched /\
         Permutation (map LiveTest.key cards)
           (map (fun q => TestingQuizzes.id (liveQuizServices.details q))
                fetched)).
Proof.
  intros fetched st. cbv zeta.
  unfold LiveTest.fetchQuizzes, LiveTest.fetchQuizzes_from_await. simpl.
  pose proof (ListingFacts.sort_Permutation LiveTest.byCreationDesc fetched)
    as Hperm.
  split; [exact Hperm|]. split; [apply ListingFacts.sort_NotOlder|].
  intros Hne. eexists. split; [|split; [reflexivity|split]].
  - unfold LiveTest.render, LiveTest.errorToShow. simpl.
    now rewrite (ListingFacts.sort_nonempty fetched Hne).
  - rewrite length_map. symmetry. now apply Permutation_length.
  - rewrite map_map. simpl. symmetry.
    now apply (Permutation_map
                 (fun q => TestingQuizzes.id (liveQuizServices.details q))).
Qed.

Lemma listing_orders_any_fetch_witness :
  let fetched :=
    [Samples.quizAt "a" 100; Samples.quizAt "b" 300; Samples.quizAt "c" 300] in
  let st' :=
    LiveTest.fetchQuizzes (JS.Fulfilled fetched) LiveTest.initialState in
  StronglySorted Shorthand.NotOlder (LiveTest.quizzes st') /\
  exists cards,
    LiveTest.render st' = LiveTest.Cards cards /\
    List.length cards = 3%nat.
Proof.
  cbv zeta.
  destruct
    (listing_orders_any_fetch
       [Samples.quizAt "a" 100; Samples.quizAt "b" 300; Samples.quizAt "c" 300]
       LiveTest.initialState)
    as [_ [Hsorted Hcards]].
  split; [exact Hsorted|].
  destruct Hcards as [cards [Hrender [_ [Hlen _]]]]; [discriminate|].
  exists cards. split; [exact Hrender | exact Hlen].
Defined.

(** What the listing shows around its one fetch: the spinner until the
    fetch settles; afterwards never the spinner and never the "No
    Tests" box, because an empty result sets an error and the error
    box comes first.  An empty result and a failed read with nothing
    loaded both end in the error box, each with its own message; a
    failed read with quizzes already there keeps their cards. *)
Theorem listing_view_after_fetch :
  forall (outcome : liveQuizServices.ListOutcome) (st : LiveTest.State),
    let view := LiveTest.render (LiveTest.fetchQuizzes outcome st) in
    LiveTest.render (LiveTest.fetchQuizzes_to_await st) = LiveTest.Spinner /\
    view <> LiveTest.Spinner /\
    view <> LiveTest.NoTests /\
    match outcome with
    | JS.Fulfilled [] => view = LiveTest.ErrorAlert LiveTest.msgNoTests
    | JS.Fulfilled fetched =>
        view = LiveTest.Cards
                 (map LiveTest.card (JS.sort LiveTest.byCreationDesc fetched))
    | JS.Rejected _ =>
        match LiveTest.quizzes st with
        | [] => view = LiveTest.ErrorAlert LiveTest.msgLoadFailed
        | shownBefore => view = LiveTest.Cards (map LiveTest.card shownBefore)
        end
    end.
Proof.
  intros outcome st. cbv zeta. split; [reflexivity|].
  destruct outcome as [[|q fetched]|reason].
  - repeat split; discriminate.
  - assert (Hne : q :: fetched <> []) by discriminate.
    unfold LiveTest.fetchQuizzes, LiveTest.fetchQuizzes_from_await,
      LiveTest.render, LiveTest.errorToShow.
    cbn [LiveTest.fetchQuizzes_to_await LiveTest.loading LiveTest.error
         LiveTest.quizzes].
    rewrite (ListingFacts.sort_nonempty _ Hne).
    repeat split; discriminate.
  - unfold LiveTest.fetchQuizzes, LiveTest.fetchQuizzes_from_await,
      LiveTest.render, LiveTest.errorToShow. simpl.
    destruct (LiveTest.quizzes st); simpl; repeat split; discriminate.
Qed.

(* ================================================================== *)
(** * The time limit of what is saved                                  *)
(* ================================================================== *)

Module PageFacts.
Import JS TestingQuizzes AuthContext CreateLiveQuiz Spec Shorthand FormView.
Import Invariants.

(** A run of the page is a run of the form. *)
Lemma pageStep_step (f f' : Form) (e : Event) :
  pageStep f e = Some f' -> step f e = Some f'.
Proof.
  destruct e; simpl; trivial.
  destruct (formValid (state f)); [trivial | discriminate].
Qed.

Lemma pageRun_run (events : list Event) :
  forall f f', pageRun f events = Some f' -> run f events = Some f'.
Proof.
  induction events as [|e rest IH]; simpl; intros f f' H; [assumption|].
  destruct (pageStep f e) as [f1|] eqn:Hs; [|discriminate].
  rewrite (pageStep_step _ _ _ Hs). now apply IH.
Qed.

(** A valid time-limit field means a whole number of at least 1 in the
    state. *)
Lemma timeLimitFieldValid_positive (st : State) :
  timeLimitFieldValid st = true ->
  PositiveInteger (timeLimit (quizDetails st)).
Proof.
  unfold timeLimitFieldValid.
  destruct (timeLimit (quizDetails st)) as [|z| |]; simpl; try discriminate.
  intros H. apply Z.leb_le in H. exists z. split; [reflexivity | lia].
Qed.

Lemma formValid_positive (st : State) :
  formValid st = true -> PositiveInteger (timeLimit (quizDetails st)).
Proof.
  unfold formValid. rewrite !andb_true_iff. intros [_ H].
  now apply timeLimitFieldValid_positive.
Qed.

(** A submit event the page lets through hands over the time limit of
    the state it was taken in. *)
Lemma accepted_timeLimit (a : Auth) (now : Z) (st : State) (c : SaveCall) :
  snd (handleSubmit_to_await a now st) = Some c ->
  timeLimit (details (quizData c)) = timeLimit (quizDetails st).
Proof.
  intros Hc.
  destruct (SubmitFacts.to_await_accepted a now st c Hc)
    as [user [_ [_ [_ [_ ->]]]]].
  reflexivity.
Qed.

Lemma pageStep_AllPositive (f f' : Form) (e : Event) :
  AllPositive f -> pageStep f e = Some f' -> AllPositive f'.
Proof.
  unfold AllPositive. intros Hall Hstep.
  destruct e as [a | name value | file | n | now | n outcome];
    simpl in Hstep.
  - now injection Hstep as <-.
  - now injection Hstep as <-.
  - destruct file as [r|]; simpl in Hstep; now injection Hstep as <-.
  - destruct (nth_error (reading f) n) as [r|]; [|discriminate].
    now injection Hstep as <-.
  - destruct (formValid (state f)) eqn:Hvalid; [|discriminate].
    apply formValid_positive in Hvalid.
    destruct (submitDisabled (auth f) (state f)); [discriminate|].
    pose proof (accepted_timeLimit (auth f) now (state f)) as Hcopy.
    destruct (handleSubmit_to_await (auth f) now (state f)) as [st [c|]];
      injection Hstep as <-; simpl; [|assumption].
    apply Forall_app. split; [assumption|].
    constructor; [|constructor]. simpl.
    now rewrite (Hcopy c eq_refl).
  - destruct (nth_error (saving f) n) as [p|]; [|discriminate].
    injection Hstep as <-. simpl. now apply ReachFacts.removeAt_Forall.
Qed.

Lemma pageRun_AllPositive (events : list Event) :
  forall f f', AllPositive f -> pageRun f events = Some f' -> AllPositive f'.
Proof.
  induction events as [|e rest IH]; simpl; intros f f' Hall Hrun.
  - now injection Hrun as <-.
  - destruct (pageStep f e) as [f1|] eqn:Hs; [|discriminate].
    eapply IH; [|exact Hrun]. eapply pageStep_AllPositive; eassumption.
Qed.

(** The handler's own check and the button's test do not stop a time
    limit that is not a number: emptying the field stores [NaN], for
    which [NaN <= 0] is false.  It is the validation of the field that
    keeps the submit event from being fired. *)
Lemma emptied_time_limit_stopped_by_validation :
  forall (save : SaveCall -> liveQuizServices.SaveOutcome) (now : Z),
    run (mounted Samples.teacher) Samples.clearedTimeLimitEvents
      = Some {| state := Samples.clearedTimeLimitDraft;
                auth := Samples.teacher;
                reading := [];
                saving := [] |} /\
    submitDisabled Samples.teacher Samples.clearedTimeLimitDraft = false /\
    (exists c,
       snd (handleSubmit save Samples.teacher now
              Samples.clearedTimeLimitDraft) = [c] /\
       timeLimit (details (quizData c)) = NaN) /\
    formValid Samples.clearedTimeLimitDraft = false /\
    pageStep {| state := Samples.clearedTimeLimitDraft;
                auth := Samples.teacher;
                reading := [];
                saving := [] |} (SubmitRequested now) = None.
Proof.
  intros save now. split; [reflexivity|]. split; [reflexivity|].
  split; [eexists; split; reflexivity|]. split; reflexivity.
Qed.

End PageFacts.

(** C8: in every bundle handed to the save, the time limit is a
    positive whole number, whatever went through the time-limit field.
    Whatever sequence of edits, uploads, submits and settlements the
    page goes through, a submit event is fired only while the button is
    enabled and the form is valid; the bundle it hands over then
    carries a time limit that is a whole number of at least 1, and so
    does every bundle still out. *)
Theorem C8_saved_time_limit_positive :
  forall (a : AuthContext.Auth) (events : list CreateLiveQuiz.Event)
         (f : CreateLiveQuiz.Form),
    FormView.pageRun (CreateLiveQuiz.mounted a) events = Some f ->
    Forall (fun p =>
              Spec.PositiveInteger
                (TestingQuizzes.timeLimit
                   (CreateLiveQuiz.details
                      (CreateLiveQuiz.quizData (CreateLiveQuiz.call p)))))
           (CreateLiveQuiz.saving f) /\
    (forall (now : Z) (f' : CreateLiveQuiz.Form) (c : CreateLiveQuiz.SaveCall),
       FormView.pageStep f (CreateLiveQuiz.SubmitRequested now) = Some f' ->
       snd (CreateLiveQuiz.handleSubmit_to_await
              (CreateLiveQuiz.auth f) now (CreateLiveQuiz.state f)) = Some c ->
       Spec.PositiveInteger
         (TestingQuizzes.timeLimit
            (CreateLiveQuiz.details (CreateLiveQuiz.quizData c)))).
Proof.
  intros a events f Hrun. split.
  - apply (PageFacts.pageRun_AllPositive events (CreateLiveQuiz.mounted a) f);
      [constructor | exact Hrun].
  - intros now f' c Hstep Hc. simpl in Hstep.
    destruct (FormView.formValid (CreateLiveQuiz.state f)) eqn:Hvalid;
      [|discriminate].
    rewrite (PageFacts.accepted_timeLimit _ _ _ _ Hc).
    now apply PageFacts.formValid_positive.
Qed.

Lemma C8_saved_time_limit_positive_witness :
  Forall (fun p =>
            Spec.PositiveInteger
              (TestingQuizzes.timeLimit
                 (CreateLiveQuiz.details
                    (CreateLiveQuiz.quizData (CreateLiveQuiz.call p)))))
         (CreateLiveQuiz.saving Samples.submittedForm).
Proof.
  exact (proj1 (C8_saved_time_limit_positive Samples.teacher
                  Samples.submittedEvents Samples.submittedForm eq_refl)).
Defined.
